(** * Launch coordination and genesis bootstrapping (ignite/services/network)

    A shallow embedding of [launch.go] of package [network] (TriggerLaunch,
    RevertLaunch) and of the [Init] flow of package [networkchain] (Init,
    initGenesis, checkInitialGenesis).

    Both packages drive external collaborators (the SPN query client, the
    clock, the keyring, the transaction broadcaster, the chain binary, the
    filesystem).  The collaborators are fields of a record of state
    transformers over an arbitrary world [W]; the Go functions are written
    in a state-and-error monad that also records, in order, every call that
    crosses the boundary together with the value it returned. *)

From stdpp Require Import base strings pretty list gmap.
From Stdlib Require Import ZArith Lia.

Open Scope Z_scope.

(** ** Go's [error] and early return *)

(** A Go [error] value is represented by its message. *)
Definition error := string.

Inductive result (A : Type) : Type :=
| Ok (a : A)
| Err (e : error).
Arguments Ok {A} a.
Arguments Err {A} e.

(** The error of a result, if it is one. *)
Definition result_error {A} (r : result A) : option error :=
  match r with Ok _ => None | Err e => Some e end.

(** [M S C A]: a computation over state [S] that returns an [A] or stops at
    the first error, and lists the boundary calls [C] it made. *)
Definition M (S C A : Type) : Type := S -> result A * S * list C.

Definition M_ret {S C A} (a : A) : M S C A := fun s => (Ok a, s, []).

Definition M_bind {S C A B} (f : A -> M S C B) (m : M S C A) : M S C B :=
  fun s =>
    match m s with
    | (Ok a, s1, l1) => let '(r, s2, l2) := f a s1 in (r, s2, l1 ++ l2)
    | (Err e, s1, l1) => (Err e, s1, l1)
    end.

#[export] Instance M_mret {S C} : MRet (M S C) := @M_ret S C.
#[export] Instance M_mbind {S C} : MBind (M S C) := @M_bind S C.

(** [return err] *)
Definition fail {S C A} (e : error) : M S C A := fun s => (Err e, s, []).

(** A call to a collaborator that may fail: run it, record it, and return
    early when it failed. *)
Definition call {S C A} (f : S -> result A * S) (c : result A -> C) : M S C A :=
  fun s => let '(r, s1) := f s in (r, s1, [c r]).

(** A call to a collaborator that cannot fail. *)
Definition call_total {S C A} (f : S -> A * S) (c : A -> C) : M S C A :=
  fun s => let '(a, s1) := f s in (Ok a, s1, [c a]).

Definition outcome {A S C} (x : result A * S * list C) : result A := x.1.1.
Definition final {A S C} (x : result A * S * list C) : S := x.1.2.
Definition calls {A S C} (x : result A * S * list C) : list C := x.2.

(** ** Package [time]

    A [time.Time] is modelled by the instant it denotes, in nanoseconds
    since the zero Time (January 1, year 1, 00:00:00 UTC); a
    [time.Duration] is a count of nanoseconds.  [Add], [Before], [After]
    and [IsZero] depend on the instant only (the location and the
    monotonic reading of a Time play no part in [launch.go]).  Instants
    are not bounded here: [Add] is exact, as it is in Go for every instant
    that a Time can hold. *)
Module time.
Definition Time := Z.
Definition Duration := Z.

Definition Second : Duration := 1000000000.

Definition Add (t : Time) (d : Duration) : Time := t + d.
Definition Before (t u : Time) : bool := t <? u.
Definition After (t u : Time) : bool := u <? t.
Definition IsZero (t : Time) : bool := t =? 0.
End time.

(** ** Package [events] *)
Module events.
Inductive Status := StatusOngoing | StatusDone.

Record Event := New { status : Status; text : string }.

#[export] Instance Status_eq_dec : EqDecision Status.
Proof. solve_decision. Defined.
#[export] Instance Event_eq_dec : EqDecision Event.
Proof. solve_decision. Defined.
End events.

(** ** Package [launchtypes] (SPN launch module) *)
Module launchtypes.
Record LaunchTimeRange := {
  MinLaunchTime : time.Duration;
  MaxLaunchTime : time.Duration
}.

Record Params := { LaunchTimeRange_ : LaunchTimeRange }.

Record QueryParamsResponse := { GetParams : Params }.

Record MsgTriggerLaunch := NewMsgTriggerLaunch {
  Coordinator : string;
  LaunchID : N;
  LaunchTime : time.Time
}.

Record MsgRevertLaunch := NewMsgRevertLaunch {
  RevertCoordinator : string;
  RevertLaunchID : N
}.

(** The messages this package hands to the broadcaster. *)
Inductive Msg :=
| TriggerLaunchMsg (m : MsgTriggerLaunch)
| RevertLaunchMsg (m : MsgRevertLaunch).
End launchtypes.

(** [fmt.Sprintf("%d", id)] for an unsigned integer. *)
Definition fmt_d (n : N) : string := pretty n.

(** ** Package [network] *)
Module network.
Import time events launchtypes.

(** const MinLaunchTimeOffset = time.Second * 30 *)
Definition MinLaunchTimeOffset : Duration := Second * 30.

Section Network.
(** The world outside the process. *)
Variable W : Type.
(** [cosmosclient.Response], with its [Decode] method. *)
Variable Response : Type.
Variable Response_Decode : Response -> result unit.
(** [time.Time.String] *)
Variable Time_String : Time -> string.
(** [networktypes.SPN] *)
Variable SPN : string.

(** The collaborators held by a [Network] value. *)
Record Network := {
  ev_Send : Event -> W -> W;
  launchQuery_Params : W -> result QueryParamsResponse * W;
  clock_Now : W -> Time * W;
  account_Address : string -> W -> result string * W;
  cosmos_BroadcastTx : Msg -> W -> result Response * W
}.

(** The [Chain] interface of package [network], as far as [RevertLaunch]
    uses it. *)
Record Chain := { ResetGenesisTime : W -> result unit * W }.

(** Boundary calls, each with what it returned. *)
Inductive Call :=
| Send (e : Event)
| Params_ (r : result QueryParamsResponse)
| Now (t : Time)
| Address (accountPrefix : string) (r : result string)
| BroadcastTx (msg : Msg) (r : result Response)
| Decode (res : Response) (r : result unit)
| ResetGenesisTime_ (r : result unit).

Definition is_BroadcastTx (c : Call) : bool :=
  match c with BroadcastTx _ _ => true | _ => false end.

Definition is_Decode (c : Call) : bool :=
  match c with Decode _ _ => true | _ => false end.

Definition is_Done (c : Call) : bool :=
  match c with
  | Send e => match status e with StatusDone => true | _ => false end
  | _ => false
  end.

Variable n : Network.

Definition send (e : Event) : M W Call unit :=
  fun w => (Ok tt, ev_Send n e w, [Send e]).

(** LaunchParams fetches the chain launch module params from SPN *)
Definition LaunchParams : M W Call Params :=
  res ← call (launchQuery_Params n) Params_;
  mret (GetParams res).

(** The [var] block of TriggerLaunch: the clock is read once for each
    bound, the lower bound first. *)
Definition launchWindow (params : Params) : M W Call (Time * Time) :=
  now1 ← call_total (clock_Now n) Now;
  now2 ← call_total (clock_Now n) Now;
  mret (Add (Add now1 (MinLaunchTime (LaunchTimeRange_ params))) MinLaunchTimeOffset,
        Add now2 (MaxLaunchTime (LaunchTimeRange_ params))).

(** TriggerLaunch launches a chain as a coordinator *)
Definition TriggerLaunch (launchID : N) (launchTime : Time) : M W Call unit :=
  send (New StatusOngoing ("Launching chain " +:+ fmt_d launchID));;
  params ← LaunchParams;
  '(minLaunchTime, maxLaunchTime) ← launchWindow params;
  address ← call (account_Address n SPN) (Address SPN);
  launchTime ←
    (if IsZero launchTime then
       (* Use minimum launch time by default *)
       mret minLaunchTime
     else
       (* check launch time is in range *)
       if Before launchTime minLaunchTime then
         fail ("launch time " +:+ Time_String launchTime
               +:+ " lower than minimum " +:+ Time_String minLaunchTime)
       else if After launchTime maxLaunchTime then
         fail ("launch time " +:+ Time_String launchTime
               +:+ " bigger than maximum " +:+ Time_String maxLaunchTime)
       else mret launchTime);
  let msg := TriggerLaunchMsg (NewMsgTriggerLaunch address launchID launchTime) in
  send (New StatusOngoing "Setting launch time");;
  res ← call (cosmos_BroadcastTx n msg) (BroadcastTx msg);
  call (fun w => (Response_Decode res, w)) (Decode res);;
  send (New StatusDone
          ("Chain " +:+ fmt_d launchID +:+ " will be launched on "
           +:+ Time_String launchTime));;
  mret tt.

(** RevertLaunch reverts a launched chain as a coordinator *)
Definition RevertLaunch (launchID : N) (chain : Chain) : M W Call unit :=
  send (New StatusOngoing ("Reverting launched chain " +:+ fmt_d launchID));;
  address ← call (account_Address n SPN) (Address SPN);
  let msg := RevertLaunchMsg (NewMsgRevertLaunch address launchID) in
  _ ← call (cosmos_BroadcastTx n msg) (BroadcastTx msg);
  send (New StatusDone ("Chain " +:+ fmt_d launchID +:+ " launch was reverted"));;
  send (New StatusOngoing "Resetting the genesis time");;
  call (ResetGenesisTime chain) ResetGenesisTime_;;
  send (New StatusDone "Genesis time was reset");;
  mret tt.

End Network.

Arguments Send {Response} e.
Arguments Params_ {Response} r.
Arguments Now {Response} t.
Arguments Address {Response} accountPrefix r.
Arguments BroadcastTx {Response} msg r.
Arguments Decode {Response} res r.
Arguments ResetGenesisTime_ {Response} r.
Arguments is_BroadcastTx {Response} c.
Arguments is_Decode {Response} c.
Arguments is_Done {Response} c.
Arguments ev_Send {W Response} n e w.
Arguments launchQuery_Params {W Response} n w.
Arguments clock_Now {W Response} n w.
Arguments account_Address {W Response} n accountPrefix w.
Arguments cosmos_BroadcastTx {W Response} n msg w.
Arguments LaunchParams {W Response} n.
Arguments launchWindow {W Response} n params.
Arguments TriggerLaunch {W Response} Response_Decode Time_String SPN n launchID launchTime.
Arguments RevertLaunch {W Response} SPN n launchID chain.
End network.

(** ** Package [networkchain] *)
Module networkchain.
Import events.

(** The fields of the [Chain] struct that [Init] reads or writes. *)
Record Chain := {
  genesisURL : string;
  genesisHash : string;
  isInitialized : bool
}.

Definition set_genesisHash (h : string) (c : Chain) : Chain :=
  {| genesisURL := genesisURL c; genesisHash := h; isInitialized := isInitialized c |}.

Definition set_isInitialized (b : bool) (c : Chain) : Chain :=
  {| genesisURL := genesisURL c; genesisHash := genesisHash c; isInitialized := b |}.

Section Chain.
(** The world outside the process: the home directory, the chain binary,
    the remote genesis server. *)
Variable W : Type.
(** The command runner returned by [c.chain.Commands]. *)
Variable Cmd : Type.
(** [cosmosutil.ChainGenesis], its parser and its gentx counter. *)
Variable ChainGenesis : Type.
Variable ParseChainGenesis : list Byte.byte -> result ChainGenesis.
Variable GenTxCount : ChainGenesis -> Z.

(** The collaborators of a [Chain]: the event bus [c.ev], the scaffolded
    chain [c.chain] and its command runner, the build step, the remote
    genesis fetcher of [cosmosutil] and the [os] file operations. *)
Record Env := {
  ev_Send : Event -> W -> W;
  chain_Home : W -> result string * W;
  chain_GenesisPath : W -> result string * W;
  chain_Init : bool -> W -> result unit * W;
  chain_Commands : W -> result Cmd * W;
  cmd_Init : Cmd -> string -> W -> result unit * W;
  cmd_ValidateGenesis : Cmd -> W -> result unit * W;
  c_Build : W -> result string * W;
  GenesisAndHashFromURL : string -> W -> result (list Byte.byte * string) * W;
  os_RemoveAll : string -> W -> result unit * W;
  os_WriteFile : string -> list Byte.byte -> N -> W -> result unit * W;
  os_ReadFile : string -> W -> result (list Byte.byte) * W
}.

(** Boundary calls, each with what it returned. *)
Inductive Call :=
| Send (e : Event)
| Home (r : result string)
| GenesisPath (r : result string)
| ChainInit (initAccounts : bool) (r : result unit)
| Commands (r : result Cmd)
| CmdInit (moniker : string) (r : result unit)
| ValidateGenesis (r : result unit)
| Build (r : result string)
| FromURL (url : string) (r : result (list Byte.byte * string))
| RemoveAll (path : string) (r : result unit)
| WriteFile (path : string) (data : list Byte.byte) (perm : N) (r : result unit)
| ReadFile (path : string) (r : result (list Byte.byte)).

(** The error a recorded call returned, if any. *)
Definition failure (c : Call) : option error :=
  match c with
  | Send _ => None
  | Home r | GenesisPath r | Build r => result_error r
  | ChainInit _ r | CmdInit _ r | ValidateGenesis r => result_error r
  | Commands r => result_error r
  | FromURL _ r => result_error r
  | RemoveAll _ r | WriteFile _ _ _ r => result_error r
  | ReadFile _ r => result_error r
  end.

Definition is_FromURL (c : Call) : bool :=
  match c with FromURL _ _ => true | _ => false end.

Definition is_WriteFile (c : Call) : bool :=
  match c with WriteFile _ _ _ _ => true | _ => false end.

Definition is_RemoveAll (c : Call) : bool :=
  match c with RemoveAll _ _ => true | _ => false end.

Definition is_CmdInit (c : Call) : bool :=
  match c with CmdInit _ _ => true | _ => false end.

Definition is_ValidateGenesis (c : Call) : bool :=
  match c with ValidateGenesis _ => true | _ => false end.

Variable env : Env.

(** The state a method with receiver [c *Chain] runs on: the struct behind
    the pointer and the world. *)
Definition St : Type := Chain * W.

(** A call that touches the world only. *)
Definition ext {A} (f : W -> result A * W) (k : result A -> Call) : M St Call A :=
  call (fun s : St => let '(r, w) := f s.2 in (r, (s.1, w))) k.

Definition send (e : Event) : M St Call unit :=
  fun s => (Ok tt, (s.1, ev_Send env e s.2), [Send e]).

(** Reading and assigning fields of [c]. *)
Definition field {A} (f : Chain -> A) : M St Call A :=
  fun s => (Ok (f s.1), s, []).

Definition assign (f : Chain -> Chain) : M St Call unit :=
  fun s => (Ok tt, (f s.1, s.2), []).

(** checkGenesis checks the stored genesis is valid *)
Definition checkInitialGenesis : M St Call unit :=
  (* perform static analysis of the chain with the validate-genesis command. *)
  chainCmd ← ext (chain_Commands env) Commands;
  (* the chain initial genesis should not contain gentx, gentxs should be
     added through requests *)
  genesisPath ← ext (chain_GenesisPath env) GenesisPath;
  genesisFile ← ext (os_ReadFile env genesisPath) (ReadFile genesisPath);
  match ParseChainGenesis genesisFile with
  | Err e => fail e
  | Ok chainGenesis =>
      if 0 <? GenTxCount chainGenesis then
        fail "the initial genesis for the chain should not contain gentx"
      else
        ext (cmd_ValidateGenesis env chainCmd) ValidateGenesis
  end.

(** initGenesis creates the initial genesis of the genesis depending on the
    initial genesis type (default, url, ...) *)
Definition initGenesis : M St Call unit :=
  send (New StatusOngoing "Computing the Genesis");;
  genesisPath ← ext (chain_GenesisPath env) GenesisPath;
  (* remove existing genesis *)
  ext (os_RemoveAll env genesisPath) (RemoveAll genesisPath);;
  (* if the blockchain has a genesis URL, the initial genesis is fetched
     from the URL *)
  url ← field genesisURL;
  (if negb (String.eqb url "") then
     '(genesis, hash) ← ext (GenesisAndHashFromURL env url) (FromURL url);
     (* if the blockchain has been initialized with no genesis hash, we
        assign the fetched hash to it otherwise we check the genesis
        integrity with the existing hash *)
     expected ← field genesisHash;
     (if String.eqb expected "" then
        assign (set_genesisHash hash)
      else if negb (String.eqb hash expected) then
        fail ("genesis from URL " +:+ url +:+ " is invalid. expected hash "
              +:+ expected +:+ ", actual hash " +:+ hash)
      else mret tt);;
     (* replace the default genesis with the fetched genesis *)
     ext (os_WriteFile env genesisPath genesis 420) (WriteFile genesisPath genesis 420)
   else
     (* default genesis is used, init CLI command is used to generate it *)
     cmd ← ext (chain_Commands env) Commands;
     ext (cmd_Init env cmd "moniker") (CmdInit "moniker"));;
  (* check the initial genesis is valid *)
  checkInitialGenesis;;
  send (New StatusDone "Genesis initialized");;
  mret tt.

(** Init initializes blockchain by building the binaries and running the
    init command and create the initial genesis of the chain, and set up a
    validator key *)
Definition Init : M St Call unit :=
  chainHome ← ext (chain_Home env) Home;
  (* cleanup home dir of app if exists. *)
  ext (os_RemoveAll env chainHome) (RemoveAll chainHome);;
  (* build the chain and initialize it with a new validator key *)
  _ ← ext (c_Build env) Build;
  send (New StatusOngoing "Initializing the blockchain");;
  ext (chain_Init env false) (ChainInit false);;
  send (New StatusDone "Blockchain initialized");;
  (* initialize and verify the genesis *)
  initGenesis;;
  assign (set_isInitialized true);;
  mret tt.

End Chain.

Arguments Send {Cmd} e.
Arguments Home {Cmd} r.
Arguments GenesisPath {Cmd} r.
Arguments ChainInit {Cmd} initAccounts r.
Arguments Commands {Cmd} r.
Arguments CmdInit {Cmd} moniker r.
Arguments ValidateGenesis {Cmd} r.
Arguments Build {Cmd} r.
Arguments FromURL {Cmd} url r.
Arguments RemoveAll {Cmd} path r.
Arguments WriteFile {Cmd} path data perm r.
Arguments ReadFile {Cmd} path r.
Arguments failure {Cmd} c.
Arguments ev_Send {W Cmd} e _ _.
Arguments chain_Home {W Cmd} e _.
Arguments chain_GenesisPath {W Cmd} e _.
Arguments chain_Init {W Cmd} e _ _.
Arguments chain_Commands {W Cmd} e _.
Arguments cmd_Init {W Cmd} e _ _ _.
Arguments cmd_ValidateGenesis {W Cmd} e _ _.
Arguments c_Build {W Cmd} e _.
Arguments GenesisAndHashFromURL {W Cmd} e _ _.
Arguments os_RemoveAll {W Cmd} e _ _.
Arguments os_WriteFile {W Cmd} e _ _ _ _.
Arguments os_ReadFile {W Cmd} e _ _.
Arguments is_FromURL {Cmd} c.
Arguments is_WriteFile {Cmd} c.
Arguments is_RemoveAll {Cmd} c.
Arguments is_CmdInit {Cmd} c.
Arguments is_ValidateGenesis {Cmd} c.
Arguments checkInitialGenesis {W Cmd ChainGenesis} ParseChainGenesis GenTxCount env.
Arguments initGenesis {W Cmd ChainGenesis} ParseChainGenesis GenTxCount env.
Arguments Init {W Cmd ChainGenesis} ParseChainGenesis GenTxCount env.
End networkchain.

(** ** A simulated world

    An in-memory instance of the collaborators: a clock that advances by a
    fixed step at each reading, a filesystem as a finite map from paths to
    contents, a remote genesis server as a finite map from URLs to contents
    and hashes, and an event sink.  It stands in for SPN, the keyring, the
    chain binary and the disk when the flows are run on concrete inputs;
    the properties below are proved for every instance of the
    collaborators, not for this one. *)
Module sim.
Import time events launchtypes.

Record World := {
  clock : Time;
  tick : Duration;
  files : gmap string (list Byte.byte);
  remote : gmap string (list Byte.byte * string);
  sink : list Event
}.

Definition set_clock (t : Time) (w : World) : World :=
  {| clock := t; tick := tick w; files := files w; remote := remote w; sink := sink w |}.

Definition set_files (f : gmap string (list Byte.byte)) (w : World) : World :=
  {| clock := clock w; tick := tick w; files := f; remote := remote w; sink := sink w |}.

Definition set_sink (l : list Event) (w : World) : World :=
  {| clock := clock w; tick := tick w; files := files w; remote := remote w; sink := l |}.

Definition Send (e : Event) (w : World) : World := set_sink (sink w ++ [e]) w.

Definition Now (w : World) : Time * World := (clock w, set_clock (clock w + tick w) w).

(** A response is its payload; the empty payload does not decode. *)
Definition Response : Type := list Byte.byte.

Definition Decode (r : Response) : result unit :=
  match r with
  | [] => Err "unexpected end of response data"
  | _ => Ok tt
  end.

(** Instants are printed as their count of nanoseconds. *)
Definition Time_String (t : Time) : string := pretty t.

Definition SPN : string := "spn".

(** A network whose SPN answers the parameter query with [p], whose
    keyring answers with [addr] and whose broadcaster answers with [tx]. *)
Definition Network (p : result Params) (addr : result string) (tx : result Response)
  : network.Network World Response :=
  {| network.ev_Send := Send;
     network.launchQuery_Params := fun w =>
       (match p with Ok p => Ok {| GetParams := p |} | Err e => Err e end, w);
     network.clock_Now := Now;
     network.account_Address := fun _ w => (addr, w);
     network.cosmos_BroadcastTx := fun _ w => (tx, w) |}.

Definition Chain (r : result unit) : network.Chain World :=
  {| network.ResetGenesisTime := fun w => (r, w) |}.

Definition TriggerLaunch p addr tx :=
  network.TriggerLaunch Decode Time_String SPN (Network p addr tx).

Definition RevertLaunch p addr tx :=
  network.RevertLaunch SPN (Network p addr tx).

(** A stand-in for [cosmosutil.ParseChainGenesis] and [GenTxCount]: a
    parsed genesis is the list of its gentxs; in the simulated file format
    every byte [g] is one gentx and the empty file does not parse. *)
Definition ChainGenesis : Type := list Byte.byte.

Definition ParseChainGenesis (data : list Byte.byte) : result ChainGenesis :=
  match data with
  | [] => Err "unexpected end of JSON input"
  | _ => Ok (List.filter (Byte.eqb "g") data)
  end.

Definition GenTxCount (g : ChainGenesis) : Z := Z.of_nat (length g).

Definition home : string := "/home/chain".
Definition genesis_json : string := "/home/chain/config/genesis.json".

Definition read (path : string) (w : World) : result (list Byte.byte) * World :=
  match files w !! path with
  | Some data => (Ok data, w)
  | None => (Err ("open " +:+ path +:+ ": no such file or directory"), w)
  end.

Definition write (path : string) (data : list Byte.byte) (w : World) : World :=
  set_files (<[path := data]> (files w)) w.

(** Removes [path] and everything below it. *)
Definition remove_all (path : string) (w : World) : World :=
  set_files (filter (fun kv => String.prefix path kv.1 = false) (files w)) w.

Definition fetch (url : string) (w : World) : result (list Byte.byte * string) * World :=
  match remote w !! url with
  | Some gh => (Ok gh, w)
  | None => (Err ("genesis url fetch error " +:+ url), w)
  end.

(** A chain whose init command writes [default] as the genesis file and
    whose validate-genesis command answers with [valid]. *)
Definition Env (default : list Byte.byte) (valid : result unit)
  : networkchain.Env World unit :=
  {| networkchain.ev_Send := Send;
     networkchain.chain_Home := fun w => (Ok home, w);
     networkchain.chain_GenesisPath := fun w => (Ok genesis_json, w);
     networkchain.chain_Init := fun _ w => (Ok tt, write genesis_json default w);
     networkchain.chain_Commands := fun w => (Ok tt, w);
     networkchain.cmd_Init := fun _ _ w => (Ok tt, write genesis_json default w);
     networkchain.cmd_ValidateGenesis := fun _ w => (valid, w);
     networkchain.c_Build := fun w => (Ok "chaind", w);
     networkchain.GenesisAndHashFromURL := fetch;
     networkchain.os_RemoveAll := fun path w => (Ok tt, remove_all path w);
     networkchain.os_WriteFile := fun path data _ w => (Ok tt, write path data w);
     networkchain.os_ReadFile := read |}.

Definition checkInitialGenesis default valid :=
  networkchain.checkInitialGenesis ParseChainGenesis GenTxCount (Env default valid).

Definition initGenesis default valid :=
  networkchain.initGenesis ParseChainGenesis GenTxCount (Env default valid).

Definition Init default valid :=
  networkchain.Init ParseChainGenesis GenTxCount (Env default valid).

(** Noon of 1 January 2023, in nanoseconds since the zero Time. *)
Definition T0 : Time := 63808171200 * Second.

Definition Hour : Duration := 3600 * Second.

Definition world (now : Time) (step : Duration) : World :=
  {| clock := now; tick := step; files := ∅; remote := ∅; sink := [] |}.

Definition with_file (path : string) (data : string) (w : World) : World :=
  write path (String.list_byte_of_string data) w.

Definition with_remote (url : string) (data hash : string) (w : World) : World :=
  {| clock := clock w; tick := tick w; files := files w;
     remote := <[url := (String.list_byte_of_string data, hash)]> (remote w);
     sink := sink w |}.

Definition params (lo hi : Duration) : Params :=
  {| LaunchTimeRange_ := {| MinLaunchTime := lo; MaxLaunchTime := hi |} |}.

(** Scenarios: launch parameters of 24 to 72 hours; a coordinator address;
    a response that decodes; a world at T0 whose clock stands still, one
    whose clock advances by an hour at each reading, and one whose clock
    stands 24h30s before the zero time; a chain record with no genesis
    URL, with a URL and no hash, and with a URL and a hash. *)
Definition day_to_three : Params := params (24 * Hour) (72 * Hour).
Definition coordinator : string := "spn1coordinator".
Definition receipt : Response := String.list_byte_of_string "0a00".
Definition now0 : World := world T0 0.
Definition ticking : World := world T0 Hour.
Definition before_zero : World := world (- (24 * Hour + 30 * Second)) 0.

Definition url0 : string := "https://example.org/genesis.json".

Definition local_chain : networkchain.Chain :=
  {| networkchain.genesisURL := ""; networkchain.genesisHash := "";
     networkchain.isInitialized := false |}.

Definition remote_chain (hash : string) : networkchain.Chain :=
  {| networkchain.genesisURL := url0; networkchain.genesisHash := hash;
     networkchain.isInitialized := false |}.

Definition default_genesis : list Byte.byte := String.list_byte_of_string "{}".

(** The coordinator triggers launch 7 at [t] under parameters [p], at T0. *)
Definition launch (p : Params) (t : Time) :=
  TriggerLaunch (Ok p) (Ok coordinator) (Ok receipt) 7%N t now0.

End sim.

(** * Properties of [network.TriggerLaunch] and [network.RevertLaunch] *)

Section NetworkProperties.
Import time events launchtypes network.

Variable W : Type.
Variable Response : Type.
Variable Response_Decode : Response -> result unit.
Variable Time_String : Time -> string.
Variable SPN : string.
Variable n : Network W Response.

Local Abbreviation TriggerLaunch := (network.TriggerLaunch Response_Decode Time_String SPN n).
Local Abbreviation RevertLaunch := (network.RevertLaunch SPN n).

Lemma launchWindow_run (params : Params) (w : W) :
  launchWindow n params w =
    let r1 := clock_Now n w in
    let r2 := clock_Now n r1.2 in
    (Ok (r1.1 + MinLaunchTime (LaunchTimeRange_ params) + MinLaunchTimeOffset,
         r2.1 + MaxLaunchTime (LaunchTimeRange_ params)),
     r2.2, [Now r1.1; Now r2.1]).
Proof.
  unfold launchWindow, mbind, M_mbind, M_bind, call_total, mret, M_mret, M_ret, Add.
  destruct (clock_Now n w) as [now1 w1]; simpl.
  destruct (clock_Now n w1) as [now2 w2]; reflexivity.
Qed.

Lemma MinLaunchTimeOffset_seconds : MinLaunchTimeOffset = 30 * 1000000000.
Proof. reflexivity. Qed.

Ltac unfold_run :=
  unfold network.TriggerLaunch, network.RevertLaunch, LaunchParams, launchWindow,
    network.send, mbind, mret, M_mbind, M_mret, M_bind, M_ret, call, call_total,
    fail, outcome, final, calls, Add, Before, After, IsZero in *.

Ltac case_step :=
  match goal with
  | H : context [match ?x with _ => _ end] |- _ =>
      lazymatch x with
      | context [match _ with _ => _ end] => fail
      | _ => destruct x eqn:?
      end
  | |- context [match ?x with _ => _ end] =>
      lazymatch x with
      | context [match _ with _ => _ end] => fail
      | _ => destruct x eqn:?
      end
  end.

Ltac run :=
  unfold_run; repeat (cbn [fst snd app] in *; case_step); cbn [fst snd app] in *;
  rewrite ?MinLaunchTimeOffset_seconds in *.

(** The run of TriggerLaunch once the parameters are fetched, the clock is
    read twice and the address is resolved, as a function of what these
    collaborators returned: the requested time is defaulted or compared to
    the bounds, then the message is broadcast and its response decoded. *)
Lemma TriggerLaunch_resolved (launchID : N) (launchTime : Time) (w w1 w2 w3 w4 : W)
    (resp : QueryParamsResponse) (now1 now2 : Time) (addr : string) :
  launchQuery_Params n
    (ev_Send n (New StatusOngoing ("Launching chain " +:+ fmt_d launchID)) w)
    = (Ok resp, w1) ->
  clock_Now n w1 = (now1, w2) ->
  clock_Now n w2 = (now2, w3) ->
  account_Address n SPN w3 = (Ok addr, w4) ->
  let wmin := now1 + MinLaunchTime (LaunchTimeRange_ (GetParams resp)) + 30 * 1000000000 in
  let wmax := now2 + MaxLaunchTime (LaunchTimeRange_ (GetParams resp)) in
  let pre :=
    [Send (New StatusOngoing ("Launching chain " +:+ fmt_d launchID));
     Params_ (Ok resp); Now now1; Now now2; Address SPN (Ok addr)] in
  let submit t :=
    let msg := TriggerLaunchMsg (NewMsgTriggerLaunch addr launchID t) in
    let sent :=
      cosmos_BroadcastTx n msg (ev_Send n (New StatusOngoing "Setting launch time") w4) in
    outcome (TriggerLaunch launchID launchTime w) =
      match sent.1 with
      | Err err => Err err
      | Ok res => match Response_Decode res with Err err => Err err | Ok _ => Ok tt end
      end /\
    exists rest,
      calls (TriggerLaunch launchID launchTime w) =
        pre ++ Send (New StatusOngoing "Setting launch time")
            :: BroadcastTx msg sent.1 :: rest in
  if launchTime =? 0 then submit wmin
  else if launchTime <? wmin then
    TriggerLaunch launchID launchTime w =
      (Err ("launch time " +:+ Time_String launchTime
            +:+ " lower than minimum " +:+ Time_String wmin), w4, pre)
  else if wmax <? launchTime then
    TriggerLaunch launchID launchTime w =
      (Err ("launch time " +:+ Time_String launchTime
            +:+ " bigger than maximum " +:+ Time_String wmax), w4, pre)
  else submit launchTime.
Proof.
  intros H1 H2 H3 H4 wmin wmax pre submit; subst wmin wmax pre submit.
  unfold_run. rewrite H1; cbn [fst snd]. rewrite H2; cbn [fst snd].
  rewrite H3; cbn [fst snd]. rewrite H4; cbn [fst snd].
  change network.MinLaunchTimeOffset with (30 * 1000000000).
  destruct (launchTime =? 0); [|destruct (launchTime <? _); [|destruct (_ <? launchTime)]].
  all: cbn [fst snd app]; try reflexivity.
  all: destruct (cosmos_BroadcastTx n _ _) as [[res|err] w5]; cbn [fst snd app].
  all: try (destruct (Response_Decode res) as [[]|err]; cbn [fst snd app]).
  all: split; [reflexivity|eexists; reflexivity].
Qed.

(** C1, as amended.  TriggerLaunch reads the clock once for each bound of
    its launch window: the lower bound is the first reading plus the
    minimum offset of the parameters plus the 30-second safety margin, the
    upper bound is the second reading plus the maximum offset, with no
    margin.  When the parameters are fetched and the address resolves,
    these are the bounds TriggerLaunch acts on: an absent (zero) request is
    submitted with the lower bound as launch time, and a present request is
    submitted exactly when it lies between the two bounds, both included. *)
Theorem TriggerLaunch_window (launchID : N) (launchTime : Time) (w w1 w2 w3 w4 : W)
    (resp : QueryParamsResponse) (now1 now2 : Time) (addr : string) :
  launchQuery_Params n
    (ev_Send n (New StatusOngoing ("Launching chain " +:+ fmt_d launchID)) w)
    = (Ok resp, w1) ->
  clock_Now n w1 = (now1, w2) ->
  clock_Now n w2 = (now2, w3) ->
  account_Address n SPN w3 = (Ok addr, w4) ->
  let wmin := now1 + MinLaunchTime (LaunchTimeRange_ (GetParams resp)) + 30 * 1000000000 in
  let wmax := now2 + MaxLaunchTime (LaunchTimeRange_ (GetParams resp)) in
  launchWindow n (GetParams resp) w1 = (Ok (wmin, wmax), w3, [Now now1; Now now2]) /\
  (launchTime = 0 ->
   exists rb,
     BroadcastTx (TriggerLaunchMsg (NewMsgTriggerLaunch addr launchID wmin)) rb
       ∈ calls (TriggerLaunch launchID launchTime w)) /\
  (launchTime <> 0 ->
   ((exists rb,
       BroadcastTx (TriggerLaunchMsg (NewMsgTriggerLaunch addr launchID launchTime)) rb
         ∈ calls (TriggerLaunch launchID launchTime w))
    <-> wmin <= launchTime <= wmax)).
Proof.
  intros H1 H2 H3 H4 wmin wmax.
  pose proof (TriggerLaunch_resolved launchID launchTime _ _ _ _ _ _ _ _ _ H1 H2 H3 H4) as R.
  cbn zeta in R. fold wmin wmax in R.
  split; [|split].
  - rewrite launchWindow_run, H2. cbn [fst snd]. rewrite H3. reflexivity.
  - intros ->. cbn [Z.eqb] in R. destruct R as (_ & rest & ->).
    eexists. cbn [app]. rewrite !elem_of_cons. eauto 10.
  - intros Hnz. apply Z.eqb_neq in Hnz. rewrite Hnz in R.
    destruct (Z.ltb_spec launchTime wmin) as [Hlo|Hlo].
    { rewrite R. unfold calls; cbn [fst snd]. split; [|lia].
      intros [rb Hin]. rewrite !elem_of_cons, elem_of_nil in Hin.
      repeat destruct Hin as [Hin|Hin]; try discriminate Hin. destruct Hin. }
    destruct (Z.ltb_spec wmax launchTime) as [Hhi|Hhi].
    { rewrite R. unfold calls; cbn [fst snd]. split; [|lia].
      intros [rb Hin]. rewrite !elem_of_cons, elem_of_nil in Hin.
      repeat destruct Hin as [Hin|Hin]; try discriminate Hin. destruct Hin. }
    destruct R as (_ & rest & ->). split; [lia|]. intros _.
    eexists. cbn [app]. rewrite !elem_of_cons. eauto 10.
Qed.

(** C2.  Once the parameters are fetched, the window [wmin, wmax] computed
    with [wmin <= wmax] and the coordinator address resolved: an absent
    (zero) launch time is replaced by [wmin] and submitted; a present
    launch time strictly before [wmin] makes TriggerLaunch stop with the
    lower-bound error citing [wmin]; one strictly after [wmax] makes it
    stop with the upper-bound error citing [wmax]; one with
    [wmin <= t <= wmax], so also one equal to either bound, is submitted
    as it is. *)
Theorem TriggerLaunch_validates_request (launchID : N) (launchTime : Time)
    (w w1 w2 w3 w4 : W) (resp : QueryParamsResponse) (now1 now2 : Time) (addr : string) :
  launchQuery_Params n
    (ev_Send n (New StatusOngoing ("Launching chain " +:+ fmt_d launchID)) w)
    = (Ok resp, w1) ->
  clock_Now n w1 = (now1, w2) ->
  clock_Now n w2 = (now2, w3) ->
  account_Address n SPN w3 = (Ok addr, w4) ->
  let wmin := now1 + MinLaunchTime (LaunchTimeRange_ (GetParams resp)) + 30 * 1000000000 in
  let wmax := now2 + MaxLaunchTime (LaunchTimeRange_ (GetParams resp)) in
  wmin <= wmax ->
  let pre :=
    [Send (New StatusOngoing ("Launching chain " +:+ fmt_d launchID));
     Params_ (Ok resp); Now now1; Now now2; Address SPN (Ok addr)] in
  let submitted t :=
    exists rest,
      calls (TriggerLaunch launchID launchTime w) =
        pre ++ Send (New StatusOngoing "Setting launch time")
            :: BroadcastTx (TriggerLaunchMsg (NewMsgTriggerLaunch addr launchID t))
                 (cosmos_BroadcastTx n
                    (TriggerLaunchMsg (NewMsgTriggerLaunch addr launchID t))
                    (ev_Send n (New StatusOngoing "Setting launch time") w4)).1
            :: rest in
  (launchTime = 0 -> submitted wmin) /\
  (launchTime <> 0 -> launchTime < wmin ->
     TriggerLaunch launchID launchTime w =
       (Err ("launch time " +:+ Time_String launchTime
             +:+ " lower than minimum " +:+ Time_String wmin), w4, pre)) /\
  (launchTime <> 0 -> wmax < launchTime ->
     TriggerLaunch launchID launchTime w =
       (Err ("launch time " +:+ Time_String launchTime
             +:+ " bigger than maximum " +:+ Time_String wmax), w4, pre)) /\
  (launchTime <> 0 -> wmin <= launchTime <= wmax -> submitted launchTime).
Proof.
  intros H1 H2 H3 H4 wmin wmax Hwindow pre submitted.
  pose proof (TriggerLaunch_resolved launchID launchTime _ _ _ _ _ _ _ _ _ H1 H2 H3 H4) as R.
  cbn zeta in R. fold wmin wmax pre in R. subst submitted.
  repeat split.
  - intros ->. cbn in R. apply R.
  - intros Hnz Hlo. apply Z.eqb_neq in Hnz. apply Z.ltb_lt in Hlo.
    rewrite Hnz, Hlo in R. exact R.
  - intros Hnz Hhi. apply Z.eqb_neq in Hnz.
    assert (Hlo : (launchTime <? wmin) = false) by (apply Z.ltb_ge; lia).
    apply Z.ltb_lt in Hhi. rewrite Hnz, Hlo, Hhi in R. exact R.
  - intros Hnz [Hlo Hhi]. apply Z.eqb_neq in Hnz.
    apply Z.ltb_ge in Hlo, Hhi. rewrite Hnz, Hlo, Hhi in R. apply R.
Qed.

Ltac compare_to_Z :=
  repeat match goal with
         | H : (_ =? _) = true |- _ => apply Z.eqb_eq in H
         | H : (_ =? _) = false |- _ => apply Z.eqb_neq in H
         | H : (_ <? _) = true |- _ => apply Z.ltb_lt in H
         | H : (_ <? _) = false |- _ => apply Z.ltb_ge in H
         end.

(** C3. A present (non-zero) launch time outside the window is rejected
    before any transaction is built: once the parameters are fetched and
    the window computed, the only further call is the address resolution,
    BroadcastTx is never invoked, and when the address resolves the error
    returned is the out-of-range error (the lower-bound one when the time
    is before the minimum, otherwise the upper-bound one). *)
Theorem TriggerLaunch_out_of_range_no_broadcast (launchID : N) (launchTime : Time) (w : W)
    (e : Event) (resp : QueryParamsResponse) (now1 now2 : Time)
    (rest : list (Call Response)) :
  calls (TriggerLaunch launchID launchTime w) =
    Send e :: Params_ (Ok resp) :: Now now1 :: Now now2 :: rest ->
  let wmin := now1 + MinLaunchTime (LaunchTimeRange_ (GetParams resp)) + 30 * 1000000000 in
  let wmax := now2 + MaxLaunchTime (LaunchTimeRange_ (GetParams resp)) in
  launchTime <> 0 ->
  launchTime < wmin \/ wmax < launchTime ->
  Forall (fun c => is_BroadcastTx c = false) (calls (TriggerLaunch launchID launchTime w)) /\
  exists ra, rest = [Address SPN ra] /\
    outcome (TriggerLaunch launchID launchTime w) =
      match ra with
      | Err err => Err err
      | Ok _ =>
          if launchTime <? wmin then
            Err ("launch time " +:+ Time_String launchTime
                 +:+ " lower than minimum " +:+ Time_String wmin)
          else
            Err ("launch time " +:+ Time_String launchTime
                 +:+ " bigger than maximum " +:+ Time_String wmax)
      end.
Proof.
  intros H wmin wmax Hnz Hout; subst wmin wmax.
  run; simplify_eq; compare_to_Z; try lia.
  all: split; [repeat constructor|eexists; split; [reflexivity|]].
  all: try reflexivity.
  all: repeat match goal with
         | |- context [?a <? ?b] => destruct (Z.ltb_spec a b); try lia
         end; reflexivity.
Qed.

Ltac split_elem H :=
  repeat (apply elem_of_cons in H; destruct H as [H|H]);
  [..|apply elem_of_nil in H; destruct H].

(** The "will be launched" event of TriggerLaunch is the last call of a run
    that returned no error, and follows the successful decoding of the
    response that BroadcastTx returned. *)
Lemma TriggerLaunch_Done_inv (launchID : N) (launchTime : Time) (w : W) (c : Call Response) :
  c ∈ calls (TriggerLaunch launchID launchTime w) ->
  is_Done c = true ->
  outcome (TriggerLaunch launchID launchTime w) = Ok tt /\
  exists pre msg res,
    calls (TriggerLaunch launchID launchTime w) =
      pre ++ [BroadcastTx msg (Ok res); Decode res (Ok tt); c] /\
    Response_Decode res = Ok tt /\
    Forall (fun c => is_Done c = false) pre.
Proof.
  intros Hin Hdone.
  run; split_elem Hin; subst c; try discriminate Hdone.
  all: split; [reflexivity|].
  all: match goal with
       | |- context [BroadcastTx ?m (Ok ?r)] =>
           eexists [_; _; _; _; _; _], m, r
       end.
  all: match goal with u : unit |- _ => destruct u end.
  all: split; [reflexivity|]; split; [assumption|repeat constructor].
Qed.

(** A response that fails to decode makes TriggerLaunch return the decode
    error, and no "done" event is sent. *)
Lemma TriggerLaunch_decode_failure (launchID : N) (launchTime : Time) (w : W)
    (msg : Msg) (res : Response) (err : error) :
  BroadcastTx msg (Ok res) ∈ calls (TriggerLaunch launchID launchTime w) ->
  Response_Decode res = Err err ->
  outcome (TriggerLaunch launchID launchTime w) = Err err /\
  Forall (fun c => is_Done c = false) (calls (TriggerLaunch launchID launchTime w)).
Proof.
  intros Hin Hdec.
  run; split_elem Hin; simplify_eq.
  all: match goal with
       | H1 : Response_Decode ?r = _, H2 : Response_Decode ?r = _ |- _ =>
           rewrite H1 in H2; simplify_eq
       end.
  all: split; [reflexivity|repeat constructor].
Qed.

(** C7. A response that fails to decode is reported as an error although
    BroadcastTx returned it without error, and then no "done" event is
    sent; the "will be launched" event is sent only in a run that returns
    no error, right after the response of BroadcastTx decoded
    successfully. *)
Theorem TriggerLaunch_decode_failure_reported (launchID : N) (launchTime : Time) (w : W) :
  (forall msg res err,
     BroadcastTx msg (Ok res) ∈ calls (TriggerLaunch launchID launchTime w) ->
     Response_Decode res = Err err ->
     outcome (TriggerLaunch launchID launchTime w) = Err err /\
     Forall (fun c => is_Done c = false) (calls (TriggerLaunch launchID launchTime w))) /\
  (forall c,
     c ∈ calls (TriggerLaunch launchID launchTime w) ->
     is_Done c = true ->
     outcome (TriggerLaunch launchID launchTime w) = Ok tt /\
     exists pre msg res,
       calls (TriggerLaunch launchID launchTime w) =
         pre ++ [BroadcastTx msg (Ok res); Decode res (Ok tt); c] /\
       Response_Decode res = Ok tt /\
       Forall (fun c => is_Done c = false) pre).
Proof.
  split.
  - apply TriggerLaunch_decode_failure.
  - apply TriggerLaunch_Done_inv.
Qed.

(** C8, as amended.  TriggerLaunch sends a "done" event only when the
    response of BroadcastTx was decoded successfully.  RevertLaunch never
    decodes a response: it sends "launch was reverted" exactly when
    BroadcastTx returned without error. *)
Theorem launch_success_reporting (launchID : N) (launchTime : Time) (chain : Chain W) (w : W) :
  (forall c,
     c ∈ calls (TriggerLaunch launchID launchTime w) ->
     is_Done c = true ->
     exists msg res,
       BroadcastTx msg (Ok res) ∈ calls (TriggerLaunch launchID launchTime w) /\
       Decode res (Ok tt) ∈ calls (TriggerLaunch launchID launchTime w)) /\
  Forall (fun c => is_Decode c = false) (calls (RevertLaunch launchID chain w)) /\
  (Send (New StatusDone ("Chain " +:+ fmt_d launchID +:+ " launch was reverted"))
     ∈ calls (RevertLaunch launchID chain w) <->
   exists msg res, BroadcastTx msg (Ok res) ∈ calls (RevertLaunch launchID chain w)).
Proof.
  split; [|split].
  - intros c Hin Hdone.
    destruct (TriggerLaunch_Done_inv _ _ _ _ Hin Hdone) as (_ & pre & msg & res & -> & _ & _).
    exists msg, res. rewrite !elem_of_app, !elem_of_cons. tauto.
  - run; repeat constructor.
  - split.
    + intros Hin. run; split_elem Hin; simplify_eq.
      all: eexists _, _; rewrite !elem_of_cons; eauto.
    + intros (msg & res & Hin). run; split_elem Hin; simplify_eq.
      all: rewrite !elem_of_cons; eauto.
Qed.

(** C10, as amended.  A zero launch time is the absent one: when the
    parameters are fetched and the address resolves, whatever the window,
    TriggerLaunch compares a zero time to neither bound and submits the
    window's minimum in its place, so what it returns is the outcome of the
    broadcast and of the decoding, never an out-of-range error.  The launch
    time of every message it submits is the minimum of the window when the
    requested time is zero and the requested time otherwise: it is the
    zero time only when the minimum of the window is the zero time. *)
Theorem TriggerLaunch_zero_time_defaulted (launchID : N) (launchTime : Time)
    (w w1 w2 w3 w4 : W) (resp : QueryParamsResponse) (now1 now2 : Time) (addr : string) :
  launchQuery_Params n
    (ev_Send n (New StatusOngoing ("Launching chain " +:+ fmt_d launchID)) w)
    = (Ok resp, w1) ->
  clock_Now n w1 = (now1, w2) ->
  clock_Now n w2 = (now2, w3) ->
  account_Address n SPN w3 = (Ok addr, w4) ->
  let wmin := now1 + MinLaunchTime (LaunchTimeRange_ (GetParams resp)) + 30 * 1000000000 in
  let msg := TriggerLaunchMsg (NewMsgTriggerLaunch addr launchID wmin) in
  let sent :=
    cosmos_BroadcastTx n msg (ev_Send n (New StatusOngoing "Setting launch time") w4) in
  (launchTime = 0 ->
   outcome (TriggerLaunch launchID launchTime w) =
     match sent.1 with
     | Err err => Err err
     | Ok res => match Response_Decode res with Err err => Err err | Ok _ => Ok tt end
     end /\
   exists rest,
     calls (TriggerLaunch launchID launchTime w) =
       [Send (New StatusOngoing ("Launching chain " +:+ fmt_d launchID));
        Params_ (Ok resp); Now now1; Now now2; Address SPN (Ok addr);
        Send (New StatusOngoing "Setting launch time"); BroadcastTx msg sent.1]
       ++ rest) /\
  (forall m rb,
     BroadcastTx (TriggerLaunchMsg m) rb ∈ calls (TriggerLaunch launchID launchTime w) ->
     LaunchTime m = (if launchTime =? 0 then wmin else launchTime) /\
     (LaunchTime m = 0 -> launchTime = 0 /\ wmin = 0)).
Proof.
  intros H1 H2 H3 H4 wmin msg sent.
  pose proof (TriggerLaunch_resolved launchID launchTime _ _ _ _ _ _ _ _ _ H1 H2 H3 H4) as R.
  cbn zeta in R. fold wmin in R. split.
  - intros ->. cbn in R. exact R.
  - clear R. intros m rb.
    unfold_run. rewrite H1; cbn [fst snd]. rewrite H2; cbn [fst snd].
    rewrite H3; cbn [fst snd]. rewrite H4; cbn [fst snd].
    change network.MinLaunchTimeOffset with (30 * 1000000000).
    intros Hin. subst wmin.
    repeat (cbn [fst snd app] in *; case_step). all: cbn [fst snd app] in *.
    all: rewrite !elem_of_cons, elem_of_nil in Hin.
    all: repeat destruct Hin as [Hin|Hin]; try discriminate Hin; try contradiction.
    all: injection Hin as -> _; cbn [LaunchTime]; compare_to_Z.
    all: split; [reflexivity|intros; lia].
Qed.

End NetworkProperties.

(** * Properties of [networkchain.Init] *)

Section ChainProperties.
Import events networkchain.

Variable W : Type.
Variable Cmd : Type.
Variable ChainGenesis : Type.
Variable ParseChainGenesis : list Byte.byte -> result ChainGenesis.
Variable GenTxCount : ChainGenesis -> Z.
Variable env : Env W Cmd.

Local Abbreviation checkInitialGenesis :=
  (networkchain.checkInitialGenesis ParseChainGenesis GenTxCount env).
Local Abbreviation initGenesis :=
  (networkchain.initGenesis ParseChainGenesis GenTxCount env).
Local Abbreviation Init :=
  (networkchain.Init ParseChainGenesis GenTxCount env).

Ltac unfold_M :=
  unfold ext, networkchain.send, field, assign, mbind, mret, M_mbind, M_mret,
    M_bind, M_ret, call, call_total, fail, outcome, final, calls in *.

Ltac split_elem H :=
  repeat (apply elem_of_cons in H; destruct H as [H|H]);
  [..|apply elem_of_nil in H; destruct H].

Ltac case_step :=
  match goal with
  | H : context [match ?x with _ => _ end] |- _ =>
      lazymatch x with
      | context [match _ with _ => _ end] => fail
      | _ => destruct x eqn:?
      end
  | |- context [match ?x with _ => _ end] =>
      lazymatch x with
      | context [match _ with _ => _ end] => fail
      | _ => destruct x eqn:?
      end
  end.

Ltac run := unfold_M; repeat (cbn [fst snd app] in *; case_step); cbn [fst snd app] in *.

Ltac strings :=
  repeat match goal with
         | H : negb _ = true |- _ => apply negb_true_iff in H
         | H : negb _ = false |- _ => apply negb_false_iff in H
         | H : String.eqb _ _ = true |- _ => apply String.eqb_eq in H
         | H : String.eqb _ _ = false |- _ => apply String.eqb_neq in H
         end.

Ltac same_parse :=
  repeat match goal with
         | H1 : ParseChainGenesis ?d = _, H2 : ParseChainGenesis ?d = _ |- _ =>
             rewrite H1 in H2
         end.

(** C5, as amended.  When the genesis file read back parses to a genesis
    with one or more gentxs, checkInitialGenesis fails with the fixed error
    "the initial genesis for the chain should not contain gentx", whatever
    their number, and the validate-genesis command is not run. *)
Theorem checkInitialGenesis_rejects_gentx (c : Chain) (w : W)
    (cmd : Cmd) (gp : string) (data : list Byte.byte) (g : ChainGenesis)
    (rest : list (Call Cmd)) :
  calls (checkInitialGenesis (c, w)) =
    Commands (Ok cmd) :: GenesisPath (Ok gp) :: ReadFile gp (Ok data) :: rest ->
  ParseChainGenesis data = Ok g ->
  0 < GenTxCount g ->
  outcome (checkInitialGenesis (c, w)) =
    Err "the initial genesis for the chain should not contain gentx" /\
  rest = [] /\
  (final (checkInitialGenesis (c, w))).1 = c.
Proof.
  intros H Hparse Hcount.
  unfold networkchain.checkInitialGenesis in *.
  run; simplify_eq.
  all: same_parse; simplify_eq.
  all: try (apply Z.ltb_ge in Heqb; lia).
  all: done.
Qed.

(** checkInitialGenesis assigns no field of the chain. *)
Lemma checkInitialGenesis_chain (s : St W) :
  (final (checkInitialGenesis s)).1 = s.1.
Proof.
  unfold networkchain.checkInitialGenesis. destruct s as [c w].
  run; reflexivity.
Qed.

Ltac check_chain :=
  repeat match goal with
         | H : networkchain.checkInitialGenesis _ _ _ ?s = (_, ?s', _) |- _ =>
             lazymatch goal with
             | _ : s'.1 = _ |- _ => fail
             | _ =>
                 let E := fresh "Echain" in
                 pose proof (checkInitialGenesis_chain s) as E;
                 unfold final in E; rewrite H in E; cbn [fst snd] in E
             end
         end.

(** C4.  With a genesis URL set, when the genesis path resolves, the old
    genesis file is removed and the fetch returns a genesis and its hash:
    if the chain has no genesis hash, initGenesis assigns the fetched hash
    to it and goes on to write the fetched genesis; if it has one that
    differs from the fetched hash, initGenesis stops with an error naming
    the URL, the expected hash and the actual hash, the chain is left as it
    was and WriteFile is not called. *)
Theorem initGenesis_fetched_hash (c : Chain) (w w1 w2 w3 : W)
    (gp : string) (genesis : list Byte.byte) (hash : string) :
  genesisURL c <> "" ->
  chain_GenesisPath env (ev_Send env (New StatusOngoing "Computing the Genesis") w)
    = (Ok gp, w1) ->
  os_RemoveAll env gp w1 = (Ok tt, w2) ->
  GenesisAndHashFromURL env (genesisURL c) w2 = (Ok (genesis, hash), w3) ->
  let pre :=
    [Send (New StatusOngoing "Computing the Genesis"); GenesisPath (Ok gp);
     RemoveAll gp (Ok tt); FromURL (genesisURL c) (Ok (genesis, hash))] in
  (genesisHash c = "" ->
     genesisHash (final (initGenesis (c, w))).1 = hash /\
     exists rest,
       calls (initGenesis (c, w)) =
         pre ++ WriteFile gp genesis 420 (os_WriteFile env gp genesis 420 w3).1 :: rest) /\
  (genesisHash c <> "" -> hash <> genesisHash c ->
     initGenesis (c, w) =
       (Err ("genesis from URL " +:+ genesisURL c +:+ " is invalid. expected hash "
             +:+ genesisHash c +:+ ", actual hash " +:+ hash), (c, w3), pre) /\
     Forall (fun k => is_WriteFile k = false) (calls (initGenesis (c, w)))).
Proof.
  intros Hurl HP HR HF pre; subst pre.
  unfold networkchain.initGenesis. unfold_M. cbn [fst snd].
  rewrite HP; cbn [fst snd]. rewrite HR; cbn [fst snd].
  destruct (String.eqb_spec (genesisURL c) "") as [|_]; [contradiction|].
  cbn [negb fst snd]. rewrite HF; cbn [fst snd]. split.
  - intros Hnone. rewrite Hnone. cbn [String.eqb fst snd].
    destruct (os_WriteFile env gp genesis 420 w3) as [[[]|err] w4]; cbn [fst snd app].
    + pose proof (checkInitialGenesis_chain (set_genesisHash hash c, w4)) as K.
      unfold final in K.
      destruct (checkInitialGenesis _) as [[[[]|err] [c5 w5]] l5]; cbn [fst snd app] in *.
      all: subst c5; split; [reflexivity|eexists; reflexivity].
    + split; [reflexivity|eexists; reflexivity].
  - intros Hsome Hdiff.
    destruct (String.eqb_spec (genesisHash c) "") as [|_]; [contradiction|].
    destruct (String.eqb_spec hash (genesisHash c)) as [|_]; [contradiction|].
    cbn [negb fst snd app]. split; [reflexivity|repeat constructor].
Qed.

(** C6, as amended.  With no genesis URL, initGenesis fetches nothing and
    writes no file itself; it does delete the genesis file and has the init
    command of the chain generate it again: a run that returns no error
    made exactly these calls, each of them successful: the genesis path,
    the removal of the genesis file, the init command with moniker
    "moniker", then the calls of checkInitialGenesis up to
    validate-genesis. *)
Theorem initGenesis_default (c : Chain) (w : W) :
  genesisURL c = "" ->
  Forall (fun k => is_FromURL k = false /\ is_WriteFile k = false)
    (calls (initGenesis (c, w))) /\
  (outcome (initGenesis (c, w)) = Ok tt ->
   exists e gp cmd cmd' gp' data e',
     calls (initGenesis (c, w)) =
       [Send e; GenesisPath (Ok gp); RemoveAll gp (Ok tt);
        Commands (Ok cmd); CmdInit "moniker" (Ok tt);
        Commands (Ok cmd'); GenesisPath (Ok gp'); ReadFile gp' (Ok data);
        ValidateGenesis (Ok tt); Send e']).
Proof.
  intros Hurl.
  unfold networkchain.initGenesis, networkchain.checkInitialGenesis in *.
  run; simplify_eq; strings; try congruence.
  all: split; [repeat constructor|intros; simplify_eq].
  all: repeat match goal with u : unit |- _ => destruct u end.
  all: repeat eexists.
Qed.

(** initGenesis leaves the initialization flag as it found it. *)
Lemma initGenesis_isInitialized (s : St W) :
  isInitialized (final (initGenesis s)).1 = isInitialized s.1.
Proof.
  unfold networkchain.initGenesis. destruct s as [c w].
  run; check_chain; rewrite ?Echain; reflexivity.
Qed.

(** A call of initGenesis that returned an error ends the run with that
    error. *)
Lemma initGenesis_failure (s : St W) (k : Call Cmd) (err : error) :
  k ∈ calls (initGenesis s) ->
  failure k = Some err ->
  outcome (initGenesis s) = Err err.
Proof.
  unfold networkchain.initGenesis, networkchain.checkInitialGenesis.
  destruct s as [c w]. intros Hin Hfail.
  run; split_elem Hin; subst k; cbn in Hfail; simplify_eq; reflexivity.
Qed.

(** A run of initGenesis that returned no error ends with a successful
    validate-genesis and the "Genesis initialized" event. *)
Lemma initGenesis_success (s : St W) :
  outcome (initGenesis s) = Ok tt ->
  exists l,
    calls (initGenesis s) =
      l ++ [ValidateGenesis (Ok tt); Send (New StatusDone "Genesis initialized")].
Proof.
  unfold networkchain.initGenesis, networkchain.checkInitialGenesis.
  destruct s as [c w]. intros H.
  run; simplify_eq.
  all: repeat match goal with u : unit |- _ => destruct u end.
  all: eexists [_; _; _; _; _; _; _; _]; reflexivity.
Qed.

(** A call of Init that returned an error ends the run with that error. *)
Lemma Init_failure (s : St W) (k : Call Cmd) (err : error) :
  k ∈ calls (Init s) ->
  failure k = Some err ->
  outcome (Init s) = Err err.
Proof.
  unfold networkchain.Init. destruct s as [c w]. intros Hin Hfail.
  run.
  all: try (split_elem Hin; subst k; cbn in Hfail; simplify_eq; reflexivity).
  all: repeat (apply elem_of_cons in Hin;
               destruct Hin as [->|Hin]; [cbn in Hfail; simplify_eq|]).
  all: match goal with
       | H : networkchain.initGenesis _ _ _ ?s = _ |- _ =>
           pose proof (initGenesis_failure s k err) as F;
           unfold calls, outcome in F; rewrite H in F; cbn [fst snd] in F
       end.
  all: try (rewrite app_nil_r in Hin).
  all: specialize (F Hin Hfail); simplify_eq; reflexivity.
Qed.

(** C9. The initialization flag is set only at the end of a run of Init in
    which the removal of the home directory, the build, the init command of
    the chain and initGenesis (genesis acquisition, ending with the
    validation of the genesis) were called in that order and all returned
    no error; a call that returns an error makes Init return that error,
    and a run that returns an error leaves the flag as it was. *)
Theorem Init_sets_flag_last (c : Chain) (w : W) :
  (outcome (Init (c, w)) = Ok tt ->
   isInitialized (final (Init (c, w))).1 = true /\
   Forall (fun k => failure k = None) (calls (Init (c, w))) /\
   exists h b w' l,
     calls (Init (c, w)) =
       Home (Ok h) :: RemoveAll h (Ok tt) :: Build (Ok b)
         :: Send (New StatusOngoing "Initializing the blockchain")
         :: ChainInit false (Ok tt)
         :: Send (New StatusDone "Blockchain initialized")
         :: calls (initGenesis (c, w')) /\
     outcome (initGenesis (c, w')) = Ok tt /\
     calls (initGenesis (c, w')) =
       l ++ [ValidateGenesis (Ok tt); Send (New StatusDone "Genesis initialized")]) /\
  (forall err, outcome (Init (c, w)) = Err err ->
     isInitialized (final (Init (c, w))).1 = isInitialized c) /\
  (forall k err, k ∈ calls (Init (c, w)) -> failure k = Some err ->
     outcome (Init (c, w)) = Err err).
Proof.
  split; [|split].
  - intros Hok. split; [|split].
    + revert Hok. unfold networkchain.Init. run; intros; simplify_eq. reflexivity.
    + apply Forall_forall. intros k Hin.
      destruct (failure k) as [err|] eqn:Hfail; [|reflexivity].
      rewrite (Init_failure _ _ _ Hin Hfail) in Hok. discriminate.
    + revert Hok. unfold networkchain.Init. run; intros; simplify_eq.
      repeat match goal with u : unit |- _ => destruct u end.
      match goal with
      | H : networkchain.initGenesis _ _ _ (c, ?w') = _ |- _ =>
          pose proof (initGenesis_success (c, w')) as S;
          unfold outcome, calls in S; rewrite H in S; cbn [fst snd] in S;
          destruct (S eq_refl) as [l' Hl];
          eexists _, _, w', l'; rewrite H; cbn [fst snd]
      end.
      rewrite app_nil_r. auto.
  - intros err. unfold networkchain.Init. run; intros; simplify_eq; try reflexivity.
    match goal with
    | H : networkchain.initGenesis _ _ _ ?s = _ |- _ =>
        pose proof (initGenesis_isInitialized s) as F;
        unfold final in F; rewrite H in F; exact F
    end.
  - intros k err. apply Init_failure.
Qed.

End ChainProperties.

(** * The flows on concrete inputs *)

Import time events launchtypes.

Ltac by_computation :=
  first [ vm_compute; reflexivity
        | let E := fresh in intros E; vm_compute in E; discriminate E
        | split; by_computation ].

(** C1, as stated, fails for a clock that moves between the two readings.
    With a clock that reads T0 and then T0+1h, and offsets of 24h and 72h,
    the bounds TriggerLaunch acts on are T0+24h+30s and T0+73h: the absent
    request is submitted as T0+24h+30s and the request one nanosecond
    before it is refused, T0+73h is submitted and the request one
    nanosecond after it is refused.  No single reading [now] gives both
    bounds as now+24h+30s and now+72h. *)
Lemma TriggerLaunch_window_two_readings :
  network.BroadcastTx
    (TriggerLaunchMsg
       (NewMsgTriggerLaunch sim.coordinator 7 (sim.T0 + 24 * sim.Hour + 30 * Second)))
    (Ok sim.receipt)
    ∈ calls (sim.TriggerLaunch (Ok sim.day_to_three) (Ok sim.coordinator) (Ok sim.receipt)
               7%N 0 sim.ticking) /\
  outcome (sim.TriggerLaunch (Ok sim.day_to_three) (Ok sim.coordinator) (Ok sim.receipt)
             7%N (sim.T0 + 24 * sim.Hour + 30 * Second - 1) sim.ticking)
    = Err ("launch time "
           +:+ sim.Time_String (sim.T0 + 24 * sim.Hour + 30 * Second - 1)
           +:+ " lower than minimum "
           +:+ sim.Time_String (sim.T0 + 24 * sim.Hour + 30 * Second)) /\
  network.BroadcastTx
    (TriggerLaunchMsg (NewMsgTriggerLaunch sim.coordinator 7 (sim.T0 + 73 * sim.Hour)))
    (Ok sim.receipt)
    ∈ calls (sim.TriggerLaunch (Ok sim.day_to_three) (Ok sim.coordinator) (Ok sim.receipt)
               7%N (sim.T0 + 73 * sim.Hour) sim.ticking) /\
  outcome (sim.TriggerLaunch (Ok sim.day_to_three) (Ok sim.coordinator) (Ok sim.receipt)
             7%N (sim.T0 + 73 * sim.Hour + 1) sim.ticking)
    = Err ("launch time " +:+ sim.Time_String (sim.T0 + 73 * sim.Hour + 1)
           +:+ " bigger than maximum "
           +:+ sim.Time_String (sim.T0 + 73 * sim.Hour)) /\
  ~ exists now : Time,
      now + MinLaunchTime (LaunchTimeRange_ sim.day_to_three) + network.MinLaunchTimeOffset
        = sim.T0 + 24 * sim.Hour + 30 * Second /\
      now + MaxLaunchTime (LaunchTimeRange_ sim.day_to_three) = sim.T0 + 73 * sim.Hour.
Proof.
  split; [vm_compute; repeat constructor|].
  split; [vm_compute; reflexivity|].
  split; [vm_compute; repeat constructor|].
  split; [vm_compute; reflexivity|].
  intros (now & Hlo & Hhi).
  unfold network.MinLaunchTimeOffset, sim.T0, sim.day_to_three, sim.params in Hlo, Hhi.
  cbn [MinLaunchTime MaxLaunchTime LaunchTimeRange_] in Hlo, Hhi.
  unfold sim.Hour, Second in Hlo, Hhi. lia.
Defined.

(** The amended C1 on the clock that reads T0 and then T0+1h. *)
Lemma TriggerLaunch_window_witness :
  network.launchWindow
    (sim.Network (Ok sim.day_to_three) (Ok sim.coordinator) (Ok sim.receipt))
    sim.day_to_three
    (sim.Send (New StatusOngoing ("Launching chain " +:+ fmt_d 7)) sim.ticking)
    = (Ok (sim.T0 + MinLaunchTime (LaunchTimeRange_ sim.day_to_three) + 30 * 1000000000,
           sim.T0 + sim.Hour + MaxLaunchTime (LaunchTimeRange_ sim.day_to_three)),
       (sim.Now (sim.Now (sim.Send (New StatusOngoing ("Launching chain " +:+ fmt_d 7))
                            sim.ticking)).2).2,
       [network.Now sim.T0; network.Now (sim.T0 + sim.Hour)]) /\
  (exists rb,
     network.BroadcastTx
       (TriggerLaunchMsg (NewMsgTriggerLaunch sim.coordinator 7 (sim.T0 + 73 * sim.Hour)))
       rb
       ∈ calls (sim.TriggerLaunch (Ok sim.day_to_three) (Ok sim.coordinator)
                  (Ok sim.receipt) 7%N (sim.T0 + 73 * sim.Hour) sim.ticking)).
Proof.
  pose proof (TriggerLaunch_window sim.World sim.Response sim.Decode sim.Time_String
                sim.SPN
                (sim.Network (Ok sim.day_to_three) (Ok sim.coordinator) (Ok sim.receipt))
                7%N (sim.T0 + 73 * sim.Hour) sim.ticking
                (sim.Send (New StatusOngoing ("Launching chain " +:+ fmt_d 7)) sim.ticking)
                _ _ _ {| GetParams := sim.day_to_three |} sim.T0 (sim.T0 + sim.Hour)
                sim.coordinator eq_refl eq_refl eq_refl eq_refl) as (Hw & _ & Hin).
  split; [exact Hw|].
  apply Hin; by_computation.
Defined.

(** C2 on the window [T0+24h+30s, T0+72h]: no requested time, T0+1h,
    T0+100h, and each of the two bounds. *)
Lemma TriggerLaunch_validates_request_witness :
  (exists rest,
     calls (sim.launch sim.day_to_three 0) =
       [network.Send (New StatusOngoing ("Launching chain " +:+ fmt_d 7));
        network.Params_ (Ok {| GetParams := sim.day_to_three |});
        network.Now sim.T0; network.Now sim.T0;
        network.Address sim.SPN (Ok sim.coordinator);
        network.Send (New StatusOngoing "Setting launch time");
        network.BroadcastTx
          (TriggerLaunchMsg
             (NewMsgTriggerLaunch sim.coordinator 7
                (sim.T0 + 24 * sim.Hour + 30 * Second)))
          (Ok sim.receipt)] ++ rest) /\
  outcome (sim.launch sim.day_to_three (sim.T0 + sim.Hour))
    = Err ("launch time " +:+ sim.Time_String (sim.T0 + sim.Hour)
           +:+ " lower than minimum "
           +:+ sim.Time_String (sim.T0 + 24 * sim.Hour + 30 * Second)) /\
  outcome (sim.launch sim.day_to_three (sim.T0 + 100 * sim.Hour))
    = Err ("launch time " +:+ sim.Time_String (sim.T0 + 100 * sim.Hour)
           +:+ " bigger than maximum "
           +:+ sim.Time_String (sim.T0 + 72 * sim.Hour)) /\
  (exists rest,
     calls (sim.launch sim.day_to_three (sim.T0 + 24 * sim.Hour + 30 * Second)) =
       [network.Send (New StatusOngoing ("Launching chain " +:+ fmt_d 7));
        network.Params_ (Ok {| GetParams := sim.day_to_three |});
        network.Now sim.T0; network.Now sim.T0;
        network.Address sim.SPN (Ok sim.coordinator);
        network.Send (New StatusOngoing "Setting launch time");
        network.BroadcastTx
          (TriggerLaunchMsg
             (NewMsgTriggerLaunch sim.coordinator 7
                (sim.T0 + 24 * sim.Hour + 30 * Second)))
          (Ok sim.receipt)] ++ rest) /\
  (exists rest,
     calls (sim.launch sim.day_to_three (sim.T0 + 72 * sim.Hour)) =
       [network.Send (New StatusOngoing ("Launching chain " +:+ fmt_d 7));
        network.Params_ (Ok {| GetParams := sim.day_to_three |});
        network.Now sim.T0; network.Now sim.T0;
        network.Address sim.SPN (Ok sim.coordinator);
        network.Send (New StatusOngoing "Setting launch time");
        network.BroadcastTx
          (TriggerLaunchMsg
             (NewMsgTriggerLaunch sim.coordinator 7 (sim.T0 + 72 * sim.Hour)))
          (Ok sim.receipt)] ++ rest).
Proof.
  pose proof (fun t =>
    TriggerLaunch_validates_request sim.World sim.Response sim.Decode sim.Time_String
      sim.SPN (sim.Network (Ok sim.day_to_three) (Ok sim.coordinator) (Ok sim.receipt))
      7%N t sim.now0
      (sim.Send (New StatusOngoing ("Launching chain " +:+ fmt_d 7)) sim.now0)
      _ _ _ {| GetParams := sim.day_to_three |} sim.T0 sim.T0 sim.coordinator
      eq_refl eq_refl eq_refl eq_refl ltac:(vm_compute; discriminate)) as H.
  cbn zeta in H.
  split; [|split; [|split; [|split]]].
  - destruct (H 0) as (D & _). exact (D eq_refl).
  - destruct (H (sim.T0 + sim.Hour)) as (_ & L & _).
    unfold sim.launch, sim.TriggerLaunch. rewrite L; [reflexivity| |]; by_computation.
  - destruct (H (sim.T0 + 100 * sim.Hour)) as (_ & _ & U & _).
    unfold sim.launch, sim.TriggerLaunch. rewrite U; [reflexivity| |]; by_computation.
  - destruct (H (sim.T0 + 24 * sim.Hour + 30 * Second)) as (_ & _ & _ & A).
    apply A; by_computation.
  - destruct (H (sim.T0 + 72 * sim.Hour)) as (_ & _ & _ & A).
    apply A; by_computation.
Defined.

(** C3 on the window [T0+24h+30s, T0+72h] with the requested time T0+100h. *)
Lemma TriggerLaunch_out_of_range_no_broadcast_witness :
  sim.T0 + 100 * sim.Hour <> 0 /\
  sim.T0 + 72 * sim.Hour < sim.T0 + 100 * sim.Hour /\
  Forall (fun c => network.is_BroadcastTx c = false)
    (calls (sim.launch sim.day_to_three (sim.T0 + 100 * sim.Hour))) /\
  exists ra,
    drop 4 (calls (sim.launch sim.day_to_three (sim.T0 + 100 * sim.Hour)))
      = [network.Address sim.SPN ra] /\
    outcome (sim.launch sim.day_to_three (sim.T0 + 100 * sim.Hour)) =
      match ra with
      | Err err => Err err
      | Ok _ =>
          if sim.T0 + 100 * sim.Hour
               <? sim.T0 + MinLaunchTime (LaunchTimeRange_ sim.day_to_three)
                  + 30 * 1000000000
          then
            Err ("launch time " +:+ sim.Time_String (sim.T0 + 100 * sim.Hour)
                 +:+ " lower than minimum "
                 +:+ sim.Time_String
                       (sim.T0 + MinLaunchTime (LaunchTimeRange_ sim.day_to_three)
                        + 30 * 1000000000))
          else
            Err ("launch time " +:+ sim.Time_String (sim.T0 + 100 * sim.Hour)
                 +:+ " bigger than maximum "
                 +:+ sim.Time_String
                       (sim.T0 + MaxLaunchTime (LaunchTimeRange_ sim.day_to_three)))
      end.
Proof.
  split; [by_computation|]. split; [by_computation|].
  assert (Hpre : calls (sim.launch sim.day_to_three (sim.T0 + 100 * sim.Hour)) =
      network.Send (New StatusOngoing "Launching chain 7")
        :: network.Params_ (Ok {| GetParams := sim.day_to_three |})
        :: network.Now sim.T0 :: network.Now sim.T0
        :: drop 4 (calls (sim.launch sim.day_to_three (sim.T0 + 100 * sim.Hour))))
    by (vm_compute; reflexivity).
  apply (TriggerLaunch_out_of_range_no_broadcast sim.World sim.Response sim.Decode
           sim.Time_String sim.SPN
           (sim.Network (Ok sim.day_to_three) (Ok sim.coordinator) (Ok sim.receipt))
           7%N (sim.T0 + 100 * sim.Hour) sim.now0 _ _ _ _ _ Hpre).
  - by_computation.
  - right. by_computation.
Defined.

(** C7 on a response with no payload, which does not decode, and on one
    that decodes. *)
Lemma TriggerLaunch_decode_failure_reported_witness :
  (outcome (sim.TriggerLaunch (Ok sim.day_to_three) (Ok sim.coordinator) (Ok [])
              7%N 0 sim.now0)
     = Err "unexpected end of response data" /\
   Forall (fun c => network.is_Done c = false)
     (calls (sim.TriggerLaunch (Ok sim.day_to_three) (Ok sim.coordinator) (Ok [])
               7%N 0 sim.now0))) /\
  outcome (sim.launch sim.day_to_three 0) = Ok tt.
Proof.
  split.
  - destruct (TriggerLaunch_decode_failure_reported sim.World sim.Response sim.Decode
                sim.Time_String sim.SPN
                (sim.Network (Ok sim.day_to_three) (Ok sim.coordinator) (Ok []))
                7%N 0 sim.now0) as [F _].
    apply (F (TriggerLaunchMsg
                (NewMsgTriggerLaunch sim.coordinator 7
                   (sim.T0 + 24 * sim.Hour + 30 * Second))) []).
    + vm_compute. repeat constructor.
    + reflexivity.
  - destruct (TriggerLaunch_decode_failure_reported sim.World sim.Response sim.Decode
                sim.Time_String sim.SPN
                (sim.Network (Ok sim.day_to_three) (Ok sim.coordinator) (Ok sim.receipt))
                7%N 0 sim.now0) as [_ D].
    apply (D (network.Send
                (New StatusDone
                   ("Chain 7 will be launched on "
                    +:+ sim.Time_String (sim.T0 + 24 * sim.Hour + 30 * Second))))).
    + vm_compute. repeat constructor.
    + reflexivity.
Defined.

(** C8, as stated, fails for RevertLaunch: with a response that does not
    decode, RevertLaunch still reports the launch as reverted, returns no
    error, and never decodes the response. *)
Lemma RevertLaunch_reports_undecoded_response :
  sim.Decode [] = Err "unexpected end of response data" /\
  network.BroadcastTx (RevertLaunchMsg (NewMsgRevertLaunch sim.coordinator 7)) (Ok [])
    ∈ calls (sim.RevertLaunch (Ok sim.day_to_three) (Ok sim.coordinator) (Ok [])
               7%N (sim.Chain (Ok tt)) sim.now0) /\
  network.Send (New StatusDone "Chain 7 launch was reverted")
    ∈ calls (sim.RevertLaunch (Ok sim.day_to_three) (Ok sim.coordinator) (Ok [])
               7%N (sim.Chain (Ok tt)) sim.now0) /\
  Forall (fun c => network.is_Decode c = false)
    (calls (sim.RevertLaunch (Ok sim.day_to_three) (Ok sim.coordinator) (Ok [])
              7%N (sim.Chain (Ok tt)) sim.now0)) /\
  outcome (sim.RevertLaunch (Ok sim.day_to_three) (Ok sim.coordinator) (Ok [])
             7%N (sim.Chain (Ok tt)) sim.now0) = Ok tt.
Proof.
  split; [reflexivity|].
  split; [vm_compute; repeat constructor|].
  split; [vm_compute; repeat constructor|].
  split; [vm_compute; repeat constructor|reflexivity].
Defined.

(** The amended C8: a launch whose response decodes, and a revert. *)
Lemma launch_success_reporting_witness :
  (exists msg res,
     network.BroadcastTx msg (Ok res) ∈ calls (sim.launch sim.day_to_three 0) /\
     network.Decode res (Ok tt) ∈ calls (sim.launch sim.day_to_three 0)) /\
  (exists msg res,
     network.BroadcastTx msg (Ok res)
       ∈ calls (sim.RevertLaunch (Ok sim.day_to_three) (Ok sim.coordinator)
                  (Ok sim.receipt) 7%N (sim.Chain (Ok tt)) sim.now0)).
Proof.
  destruct (launch_success_reporting sim.World sim.Response sim.Decode
              sim.Time_String sim.SPN
              (sim.Network (Ok sim.day_to_three) (Ok sim.coordinator) (Ok sim.receipt))
              7%N 0 (sim.Chain (Ok tt)) sim.now0) as (D & _ & R).
  split.
  - apply (D (network.Send
                (New StatusDone
                   ("Chain 7 will be launched on "
                    +:+ sim.Time_String (sim.T0 + 24 * sim.Hour + 30 * Second))))).
    + vm_compute. repeat constructor.
    + reflexivity.
  - apply R. vm_compute. repeat constructor.
Defined.

(** C10, as stated, fails on its last consequence: with a clock that reads
    24h30s before the zero time and a minimum offset of 24h, the minimum
    of the window is the zero time, and the absent request is submitted
    with the zero time as launch time. *)
Lemma TriggerLaunch_schedules_zero_time :
  - (24 * sim.Hour + 30 * Second)
    + MinLaunchTime (LaunchTimeRange_ sim.day_to_three) + network.MinLaunchTimeOffset = 0 /\
  network.BroadcastTx
    (TriggerLaunchMsg (NewMsgTriggerLaunch sim.coordinator 7 0)) (Ok sim.receipt)
    ∈ calls (sim.TriggerLaunch (Ok sim.day_to_three) (Ok sim.coordinator) (Ok sim.receipt)
               7%N 0 sim.before_zero) /\
  outcome (sim.TriggerLaunch (Ok sim.day_to_three) (Ok sim.coordinator) (Ok sim.receipt)
             7%N 0 sim.before_zero) = Ok tt.
Proof.
  split; [reflexivity|].
  split; [vm_compute; repeat constructor|vm_compute; reflexivity].
Defined.

(** The amended C10 on the window [T0+24h+30s, T0+72h]: the zero time
    lies far before it and is submitted as T0+24h+30s. *)
Lemma TriggerLaunch_zero_time_defaulted_witness :
  0 < sim.T0 + 24 * sim.Hour + 30 * Second /\
  outcome (sim.launch sim.day_to_three 0) = Ok tt /\
  exists rest,
    calls (sim.launch sim.day_to_three 0) =
      [network.Send (New StatusOngoing ("Launching chain " +:+ fmt_d 7));
       network.Params_ (Ok {| GetParams := sim.day_to_three |});
       network.Now sim.T0; network.Now sim.T0;
       network.Address sim.SPN (Ok sim.coordinator);
       network.Send (New StatusOngoing "Setting launch time");
       network.BroadcastTx
         (TriggerLaunchMsg
            (NewMsgTriggerLaunch sim.coordinator 7
               (sim.T0 + 24 * sim.Hour + 30 * Second)))
         (Ok sim.receipt)] ++ rest.
Proof.
  split; [reflexivity|].
  destruct (TriggerLaunch_zero_time_defaulted sim.World sim.Response sim.Decode
              sim.Time_String sim.SPN
              (sim.Network (Ok sim.day_to_three) (Ok sim.coordinator) (Ok sim.receipt))
              7%N 0 sim.now0
              (sim.Send (New StatusOngoing ("Launching chain " +:+ fmt_d 7)) sim.now0)
              _ _ _ {| GetParams := sim.day_to_three |} sim.T0 sim.T0 sim.coordinator
              eq_refl eq_refl eq_refl eq_refl) as [Z _].
  exact (Z eq_refl).
Defined.

(** C4 on a remote genesis with hash "abc": a chain with no hash adopts
    it; a chain that expects "def" fails and writes nothing. *)
Lemma initGenesis_fetched_hash_witness :
  networkchain.genesisHash
    (final (sim.initGenesis sim.default_genesis (Ok tt)
              (sim.remote_chain "", sim.with_remote sim.url0 "{}" "abc" sim.now0))).1
    = "abc" /\
  outcome (sim.initGenesis sim.default_genesis (Ok tt)
             (sim.remote_chain "def", sim.with_remote sim.url0 "{}" "abc" sim.now0))
    = Err "genesis from URL https://example.org/genesis.json is invalid. expected hash def, actual hash abc" /\
  Forall (fun k => networkchain.is_WriteFile k = false)
    (calls (sim.initGenesis sim.default_genesis (Ok tt)
              (sim.remote_chain "def", sim.with_remote sim.url0 "{}" "abc" sim.now0))).
Proof.
  pose proof (fun h U =>
    initGenesis_fetched_hash sim.World unit sim.ChainGenesis sim.ParseChainGenesis
      sim.GenTxCount (sim.Env sim.default_genesis (Ok tt)) (sim.remote_chain h)
      (sim.with_remote sim.url0 "{}" "abc" sim.now0) _ _ _
      sim.genesis_json (String.list_byte_of_string "{}") "abc"
      U eq_refl eq_refl eq_refl) as H.
  cbn zeta in H.
  split.
  - destruct (H "") as (A & _); [discriminate|].
    apply A. reflexivity.
  - destruct (H "def") as (_ & B); [discriminate|].
    destruct B as (E & F); [discriminate|discriminate|].
    split; [|exact F].
    unfold sim.initGenesis. rewrite E. reflexivity.
Defined.

(** The amended C5 on a genesis file with one gentx. *)
Lemma checkInitialGenesis_rejects_gentx_witness :
  0 < sim.GenTxCount (String.list_byte_of_string "g") /\
  outcome (sim.checkInitialGenesis sim.default_genesis (Ok tt)
             (sim.local_chain, sim.with_file sim.genesis_json "{g}" sim.now0))
    = Err "the initial genesis for the chain should not contain gentx" /\
  drop 3 (calls (sim.checkInitialGenesis sim.default_genesis (Ok tt)
                   (sim.local_chain, sim.with_file sim.genesis_json "{g}" sim.now0)))
    = [].
Proof.
  split; [reflexivity|].
  assert (Hpre :
    calls (sim.checkInitialGenesis sim.default_genesis (Ok tt)
             (sim.local_chain, sim.with_file sim.genesis_json "{g}" sim.now0)) =
      networkchain.Commands (Ok tt)
        :: networkchain.GenesisPath (Ok sim.genesis_json)
        :: networkchain.ReadFile sim.genesis_json (Ok (String.list_byte_of_string "{g}"))
        :: drop 3 (calls (sim.checkInitialGenesis sim.default_genesis (Ok tt)
                            (sim.local_chain,
                             sim.with_file sim.genesis_json "{g}" sim.now0))))
    by (vm_compute; reflexivity).
  destruct (checkInitialGenesis_rejects_gentx sim.World unit sim.ChainGenesis
              sim.ParseChainGenesis sim.GenTxCount (sim.Env sim.default_genesis (Ok tt))
              sim.local_chain (sim.with_file sim.genesis_json "{g}" sim.now0)
              _ _ _ (String.list_byte_of_string "g") _ Hpre)
    as (E & R & _).
  - reflexivity.
  - reflexivity.
  - split; [exact E|exact R].
Defined.

(** C5, as stated, fails: the error does not carry the number of gentxs.
    A genesis with one gentx and a genesis with two are rejected with the
    same error, so no reading of the error yields the count. *)
Lemma checkInitialGenesis_error_without_count :
  sim.GenTxCount (String.list_byte_of_string "g") = 1 /\
  sim.GenTxCount (String.list_byte_of_string "gg") = 2 /\
  outcome (sim.checkInitialGenesis sim.default_genesis (Ok tt)
             (sim.local_chain, sim.with_file sim.genesis_json "{g}" sim.now0))
    = Err "the initial genesis for the chain should not contain gentx" /\
  outcome (sim.checkInitialGenesis sim.default_genesis (Ok tt)
             (sim.local_chain, sim.with_file sim.genesis_json "{gg}" sim.now0))
    = Err "the initial genesis for the chain should not contain gentx" /\
  ~ exists count_of : error -> Z,
      forall (data : string) (g : sim.ChainGenesis),
        sim.ParseChainGenesis (String.list_byte_of_string data) = Ok g ->
        0 < sim.GenTxCount g ->
        exists e,
          outcome (sim.checkInitialGenesis sim.default_genesis (Ok tt)
                     (sim.local_chain, sim.with_file sim.genesis_json data sim.now0))
            = Err e /\
          count_of e = sim.GenTxCount g.
Proof.
  split; [reflexivity|]. split; [reflexivity|].
  split; [vm_compute; reflexivity|]. split; [vm_compute; reflexivity|].
  intros [count_of H].
  destruct (H "{g}" _ eq_refl eq_refl) as (e1 & E1 & C1).
  destruct (H "{gg}" _ eq_refl eq_refl) as (e2 & E2 & C2).
  vm_compute in E1, E2. injection E1 as <-. injection E2 as <-.
  rewrite C1 in C2. discriminate C2.
Defined.

(** C6, as stated, fails: with no genesis URL and the genesis file of the
    init command in place, initGenesis removes that file and runs the init
    command again. *)
Lemma initGenesis_default_removes_and_regenerates :
  networkchain.genesisURL sim.local_chain = "" /\
  sim.files (sim.with_file sim.genesis_json "{}" sim.now0) !! sim.genesis_json
    = Some sim.default_genesis /\
  networkchain.RemoveAll sim.genesis_json (Ok tt)
    ∈ calls (sim.initGenesis sim.default_genesis (Ok tt)
               (sim.local_chain, sim.with_file sim.genesis_json "{}" sim.now0)) /\
  networkchain.CmdInit "moniker" (Ok tt)
    ∈ calls (sim.initGenesis sim.default_genesis (Ok tt)
               (sim.local_chain, sim.with_file sim.genesis_json "{}" sim.now0)).
Proof.
  split; [reflexivity|]. split; [vm_compute; reflexivity|].
  split; vm_compute; repeat constructor.
Defined.

(** The amended C6 on a chain with no genesis URL. *)
Lemma initGenesis_default_witness :
  Forall (fun k => networkchain.is_FromURL k = false /\ networkchain.is_WriteFile k = false)
    (calls (sim.initGenesis sim.default_genesis (Ok tt)
              (sim.local_chain, sim.with_file sim.genesis_json "{}" sim.now0))) /\
  exists e gp cmd cmd' gp' data e',
    calls (sim.initGenesis sim.default_genesis (Ok tt)
             (sim.local_chain, sim.with_file sim.genesis_json "{}" sim.now0)) =
      [networkchain.Send e; networkchain.GenesisPath (Ok gp);
       networkchain.RemoveAll gp (Ok tt);
       networkchain.Commands (Ok cmd); networkchain.CmdInit "moniker" (Ok tt);
       networkchain.Commands (Ok cmd'); networkchain.GenesisPath (Ok gp');
       networkchain.ReadFile gp' (Ok data);
       networkchain.ValidateGenesis (Ok tt); networkchain.Send e'].
Proof.
  destruct (initGenesis_default sim.World unit sim.ChainGenesis sim.ParseChainGenesis
              sim.GenTxCount (sim.Env sim.default_genesis (Ok tt)) sim.local_chain
              (sim.with_file sim.genesis_json "{}" sim.now0) eq_refl) as [F S].
  split; [exact F|]. apply S. vm_compute. reflexivity.
Defined.

(** C9 on a run of Init that succeeds and on one whose validate-genesis
    command fails. *)
Lemma Init_sets_flag_last_witness :
  networkchain.isInitialized
    (final (sim.Init sim.default_genesis (Ok tt) (sim.local_chain, sim.now0))).1 = true /\
  outcome (sim.Init sim.default_genesis (Err "validation failed")
             (sim.local_chain, sim.now0)) = Err "validation failed" /\
  networkchain.isInitialized
    (final (sim.Init sim.default_genesis (Err "validation failed")
              (sim.local_chain, sim.now0))).1 = false.
Proof.
  split.
  - destruct (Init_sets_flag_last sim.World unit sim.ChainGenesis sim.ParseChainGenesis
                sim.GenTxCount (sim.Env sim.default_genesis (Ok tt)) sim.local_chain
                sim.now0) as (S & _ & _).
    destruct S as (T & _); [vm_compute; reflexivity|exact T].
  - destruct (Init_sets_flag_last sim.World unit sim.ChainGenesis sim.ParseChainGenesis
                sim.GenTxCount (sim.Env sim.default_genesis (Err "validation failed"))
                sim.local_chain sim.now0) as (_ & U & F).
    assert (E : outcome (sim.Init sim.default_genesis (Err "validation failed")
                           (sim.local_chain, sim.now0)) = Err "validation failed").
    { apply (F (networkchain.ValidateGenesis (Err "validation failed"))).
      - vm_compute. repeat constructor.
      - reflexivity. }
    split; [exact E|exact (U _ E)].
Defined.

(** * Further properties of [network.TriggerLaunch] and [network.RevertLaunch] *)

Ltac destruct_scrutinee :=
  match goal with
  | H : context [match ?x with _ => _ end] |- _ =>
      lazymatch x with
      | context [match _ with _ => _ end] => fail
      | _ => destruct x eqn:?
      end
  | |- context [match ?x with _ => _ end] =>
      lazymatch x with
      | context [match _ with _ => _ end] => fail
      | _ => destruct x eqn:?
      end
  end.

Ltac all_runs :=
  repeat (cbn [fst snd app] in *; destruct_scrutinee); cbn [fst snd app] in *.

Ltac network_runs :=
  unfold network.TriggerLaunch, network.RevertLaunch, network.LaunchParams,
    network.launchWindow, network.send, mbind, mret, M_mbind, M_mret, M_bind, M_ret,
    call, call_total, fail, outcome, final, calls, Add, Before, After, IsZero in *;
  all_runs;
  change network.MinLaunchTimeOffset with (30 * 1000000000) in *.

Ltac which_call H :=
  repeat (apply elem_of_cons in H; destruct H as [H|H]);
  [..|apply elem_of_nil in H; destruct H].

Ltac order_of_Z :=
  repeat match goal with
         | H : (_ =? _) = true |- _ => apply Z.eqb_eq in H
         | H : (_ =? _) = false |- _ => apply Z.eqb_neq in H
         | H : (_ <? _) = true |- _ => apply Z.ltb_lt in H
         | H : (_ <? _) = false |- _ => apply Z.ltb_ge in H
         end.

Section NetworkRuns.
Import network.

Variable W : Type.
Variable Response : Type.
Variable Response_Decode : Response -> result unit.
Variable Time_String : Time -> string.
Variable SPN : string.
Variable n : Network W Response.

Local Abbreviation TriggerLaunch := (network.TriggerLaunch Response_Decode Time_String SPN n).
Local Abbreviation RevertLaunch := (network.RevertLaunch SPN n).

(** X1. When the parameter query fails, TriggerLaunch returns its error and
    has done nothing but announce the launch and query: the clock is not
    read, the address is not resolved, nothing is broadcast. *)
Theorem TriggerLaunch_params_failure (launchID : N) (launchTime : Time) (w : W)
    (err : error) :
  Params_ (Err err) ∈ calls (TriggerLaunch launchID launchTime w) ->
  outcome (TriggerLaunch launchID launchTime w) = Err err /\
  calls (TriggerLaunch launchID launchTime w) =
    [Send (New StatusOngoing ("Launching chain " +:+ fmt_d launchID));
     Params_ (Err err)].
Proof.
  intros Hin. network_runs; which_call Hin; simplify_eq.
  split; reflexivity.
Qed.

(** X2. When the coordinator address cannot be resolved, TriggerLaunch
    returns that error right after computing the window, whatever the
    requested time: the time is not validated and nothing is broadcast. *)
Theorem TriggerLaunch_address_failure (launchID : N) (launchTime : Time) (w : W)
    (err : error) :
  Address SPN (Err err) ∈ calls (TriggerLaunch launchID launchTime w) ->
  outcome (TriggerLaunch launchID launchTime w) = Err err /\
  exists resp now1 now2,
    calls (TriggerLaunch launchID launchTime w) =
      [Send (New StatusOngoing ("Launching chain " +:+ fmt_d launchID));
       Params_ (Ok resp); Now now1; Now now2; Address SPN (Err err)].
Proof.
  intros Hin. network_runs; which_call Hin; simplify_eq.
  split; [reflexivity|]. eexists _, _, _. reflexivity.
Qed.

(** X3. When BroadcastTx fails, TriggerLaunch returns its error; the
    failed broadcast is the last call: no response is decoded, no "done"
    event is sent and the broadcast is not retried. *)
Theorem TriggerLaunch_broadcast_failure (launchID : N) (launchTime : Time) (w : W)
    (msg : Msg) (err : error) :
  BroadcastTx msg (Err err) ∈ calls (TriggerLaunch launchID launchTime w) ->
  outcome (TriggerLaunch launchID launchTime w) = Err err /\
  exists pre,
    calls (TriggerLaunch launchID launchTime w) = pre ++ [BroadcastTx msg (Err err)] /\
    Forall (fun c => is_BroadcastTx c = false /\ is_Decode c = false /\ is_Done c = false)
      pre.
Proof.
  intros Hin. network_runs; which_call Hin; simplify_eq.
  all: split; [reflexivity|].
  all: eexists [_; _; _; _; _; _]; split; [reflexivity|repeat constructor].
Qed.

(** X4. Neither flow retries: a run of TriggerLaunch or of RevertLaunch
    broadcasts at most one transaction. *)
Theorem at_most_one_broadcast (launchID : N) (launchTime : Time) (chain : Chain W) (w : W) :
  (length (List.filter is_BroadcastTx (calls (TriggerLaunch launchID launchTime w))) <= 1)%nat /\
  (length (List.filter is_BroadcastTx (calls (RevertLaunch launchID chain w))) <= 1)%nat.
Proof.
  split; network_runs; cbn; lia.
Qed.

(** X5. Every message TriggerLaunch broadcasts is a MsgTriggerLaunch from
    the resolved coordinator address for the launch ID it was given; its
    launch time is the window minimum for a zero request and the request
    otherwise, it is never before the window minimum, and a non-zero
    request that is submitted is not after the window maximum. *)
Theorem TriggerLaunch_submitted_message (launchID : N) (launchTime : Time) (w : W)
    (e : Event) (resp : QueryParamsResponse) (now1 now2 : Time)
    (rest : list (Call Response)) (msg : Msg) (rb : result Response) :
  calls (TriggerLaunch launchID launchTime w) =
    Send e :: Params_ (Ok resp) :: Now now1 :: Now now2 :: rest ->
  BroadcastTx msg rb ∈ rest ->
  let wmin := now1 + MinLaunchTime (LaunchTimeRange_ (GetParams resp)) + 30 * 1000000000 in
  let wmax := now2 + MaxLaunchTime (LaunchTimeRange_ (GetParams resp)) in
  exists addr t,
    Address SPN (Ok addr) ∈ rest /\
    msg = TriggerLaunchMsg (NewMsgTriggerLaunch addr launchID t) /\
    t = (if launchTime =? 0 then wmin else launchTime) /\
    wmin <= t /\
    (launchTime <> 0 -> t <= wmax).
Proof.
  intros H Hin wmin wmax; subst wmin wmax.
  network_runs; simplify_eq; which_call Hin; simplify_eq; order_of_Z.
  all: eexists _, _; split; [rewrite !elem_of_cons; eauto|].
  all: split; [reflexivity|]; split; [reflexivity|]; split; intros; lia.
Qed.

(** X6. A run of TriggerLaunch that returns no error ends with the
    successful broadcast of a message for the given launch ID, the
    successful decoding of its response and the "done" event, and the time
    announced in that event is the launch time of the message. *)
Theorem TriggerLaunch_success_announces_submitted_time (launchID : N) (launchTime : Time)
    (w : W) :
  outcome (TriggerLaunch launchID launchTime w) = Ok tt ->
  exists pre m res,
    calls (TriggerLaunch launchID launchTime w) =
      pre ++ [BroadcastTx (TriggerLaunchMsg m) (Ok res); Decode res (Ok tt);
              Send (New StatusDone
                      ("Chain " +:+ fmt_d launchID +:+ " will be launched on "
                       +:+ Time_String (LaunchTime m)))] /\
    LaunchID m = launchID /\
    Response_Decode res = Ok tt.
Proof.
  intros Hok. network_runs; simplify_eq.
  all: repeat match goal with u : unit |- _ => destruct u end.
  all: eexists [_; _; _; _; _; _], (NewMsgTriggerLaunch _ _ _), _.
  all: split; [reflexivity|split; [reflexivity|assumption]].
Qed.

(** X7. RevertLaunch returns no error exactly on the run in which the
    address resolved, the revert message for the given launch ID was
    broadcast from that address without error and the genesis time was
    reset without error; these are then all its calls, in this order. *)
Theorem RevertLaunch_success (launchID : N) (chain : Chain W) (w : W) :
  outcome (RevertLaunch launchID chain w) = Ok tt <->
  exists addr res,
    calls (RevertLaunch launchID chain w) =
      [Send (New StatusOngoing ("Reverting launched chain " +:+ fmt_d launchID));
       Address SPN (Ok addr);
       BroadcastTx (RevertLaunchMsg (NewMsgRevertLaunch addr launchID)) (Ok res);
       Send (New StatusDone ("Chain " +:+ fmt_d launchID +:+ " launch was reverted"));
       Send (New StatusOngoing "Resetting the genesis time");
       ResetGenesisTime_ (Ok tt);
       Send (New StatusDone "Genesis time was reset")].
Proof.
  split.
  - intros Hok. network_runs; simplify_eq.
    repeat match goal with u : unit |- _ => destruct u end.
    eexists _, _. reflexivity.
  - intros (addr & res & H). network_runs; simplify_eq. reflexivity.
Qed.

(** X8. When the address resolution or the broadcast fails, RevertLaunch
    returns that error without touching the chain: ResetGenesisTime is not
    called and no "done" event is sent. *)
Theorem RevertLaunch_failure_before_reset (launchID : N) (chain : Chain W) (w : W)
    (err : error) :
  Address SPN (Err err) ∈ calls (RevertLaunch launchID chain w) \/
  (exists msg, BroadcastTx msg (Err err) ∈ calls (RevertLaunch launchID chain w)) ->
  outcome (RevertLaunch launchID chain w) = Err err /\
  Forall (fun c => is_Done c = false /\
                   match c with ResetGenesisTime_ _ => False | _ => True end)
    (calls (RevertLaunch launchID chain w)).
Proof.
  intros [Hin|[msg Hin]]; network_runs; which_call Hin; simplify_eq.
  all: split; [reflexivity|repeat constructor].
Qed.

(** X9. When ResetGenesisTime fails, RevertLaunch returns its error
    although the revert transaction was already broadcast without error
    and reported: the failed reset is the last call, nothing is broadcast
    to undo the revert, and "Genesis time was reset" is not sent. *)
Theorem RevertLaunch_reset_failure (launchID : N) (chain : Chain W) (w : W) (err : error) :
  ResetGenesisTime_ (Err err) ∈ calls (RevertLaunch launchID chain w) ->
  outcome (RevertLaunch launchID chain w) = Err err /\
  exists addr res,
    calls (RevertLaunch launchID chain w) =
      [Send (New StatusOngoing ("Reverting launched chain " +:+ fmt_d launchID));
       Address SPN (Ok addr);
       BroadcastTx (RevertLaunchMsg (NewMsgRevertLaunch addr launchID)) (Ok res);
       Send (New StatusDone ("Chain " +:+ fmt_d launchID +:+ " launch was reverted"));
       Send (New StatusOngoing "Resetting the genesis time");
       ResetGenesisTime_ (Err err)].
Proof.
  intros Hin. network_runs; which_call Hin; simplify_eq.
  split; [reflexivity|]. eexists _, _. reflexivity.
Qed.

End NetworkRuns.

(** * Further properties of [networkchain.Init] *)

Ltac chain_runs :=
  unfold networkchain.ext, networkchain.send, networkchain.field, networkchain.assign,
    mbind, mret, M_mbind, M_mret, M_bind, M_ret, call, call_total, fail,
    outcome, final, calls in *;
  all_runs.

Ltac text_of_bool :=
  repeat match goal with
         | H : negb _ = true |- _ => apply negb_true_iff in H
         | H : negb _ = false |- _ => apply negb_false_iff in H
         | H : String.eqb _ _ = true |- _ => apply String.eqb_eq in H
         | H : String.eqb _ _ = false |- _ => apply String.eqb_neq in H
         end.

Section ChainRuns.
Import networkchain.

Variable W : Type.
Variable Cmd : Type.
Variable ChainGenesis : Type.
Variable ParseChainGenesis : list Byte.byte -> result ChainGenesis.
Variable GenTxCount : ChainGenesis -> Z.
Variable env : Env W Cmd.

Local Abbreviation checkInitialGenesis :=
  (networkchain.checkInitialGenesis ParseChainGenesis GenTxCount env).
Local Abbreviation initGenesis :=
  (networkchain.initGenesis ParseChainGenesis GenTxCount env).
Local Abbreviation Init :=
  (networkchain.Init ParseChainGenesis GenTxCount env).

Ltac one_parse :=
  repeat match goal with
         | H1 : ParseChainGenesis ?d = _, H2 : ParseChainGenesis ?d = _ |- _ =>
             rewrite H1 in H2
         end.

(** X10. The validate-genesis command is run only as the last step of
    checkInitialGenesis, on a genesis file that was read and parsed and
    holds no gentx, and its verdict is what checkInitialGenesis returns. *)
Theorem checkInitialGenesis_validates_last (c : Chain) (w : W) (r : result unit) :
  ValidateGenesis r ∈ calls (checkInitialGenesis (c, w)) ->
  outcome (checkInitialGenesis (c, w)) = r /\
  exists cmd gp data g,
    calls (checkInitialGenesis (c, w)) =
      [Commands (Ok cmd); GenesisPath (Ok gp); ReadFile gp (Ok data); ValidateGenesis r] /\
    ParseChainGenesis data = Ok g /\
    GenTxCount g <= 0.
Proof.
  intros Hin. unfold networkchain.checkInitialGenesis in *.
  chain_runs; which_call Hin; simplify_eq.
  split; [reflexivity|]. eexists _, _, _, _. split; [reflexivity|].
  split; [eassumption|]. apply Z.ltb_ge. assumption.
Qed.

(** X11. A genesis file that does not parse makes checkInitialGenesis
    return the parse error; the validate-genesis command is not run. *)
Theorem checkInitialGenesis_parse_error (c : Chain) (w : W)
    (cmd : Cmd) (gp : string) (data : list Byte.byte) (err : error)
    (rest : list (Call Cmd)) :
  calls (checkInitialGenesis (c, w)) =
    Commands (Ok cmd) :: GenesisPath (Ok gp) :: ReadFile gp (Ok data) :: rest ->
  ParseChainGenesis data = Err err ->
  outcome (checkInitialGenesis (c, w)) = Err err /\ rest = [].
Proof.
  intros H Hparse. unfold networkchain.checkInitialGenesis in *.
  chain_runs; simplify_eq; one_parse; simplify_eq.
  split; reflexivity.
Qed.

(** X12. checkInitialGenesis only inspects: it makes at most four calls,
    none of which removes or writes a file, fetches, builds, runs an init
    command or sends an event, and it leaves the chain record as it is. *)
Theorem checkInitialGenesis_inspects_only (c : Chain) (w : W) :
  Forall (fun k => match k with
                   | Commands _ | GenesisPath _ | ReadFile _ _ | ValidateGenesis _ => True
                   | _ => False
                   end) (calls (checkInitialGenesis (c, w))) /\
  (length (calls (checkInitialGenesis (c, w))) <= 4)%nat /\
  (final (checkInitialGenesis (c, w))).1 = c.
Proof.
  unfold networkchain.checkInitialGenesis.
  chain_runs; (split; [repeat constructor|split; [cbn; lia|reflexivity]]).
Qed.

Ltac unfold_genesis :=
  unfold networkchain.initGenesis, networkchain.checkInitialGenesis in *.

Ltac is_member :=
  rewrite !elem_of_cons; repeat (first [left; reflexivity | right]).

(** X13. When the remote fetch fails, initGenesis returns its error and
    leaves the chain record as it was; by then the genesis file has been
    removed, and nothing is written or generated in its place. *)
Theorem initGenesis_fetch_failure (c : Chain) (w : W) (url : string) (err : error) :
  FromURL url (Err err) ∈ calls (initGenesis (c, w)) ->
  outcome (initGenesis (c, w)) = Err err /\
  (final (initGenesis (c, w))).1 = c /\
  url = genesisURL c /\
  exists gp,
    calls (initGenesis (c, w)) =
      [Send (New StatusOngoing "Computing the Genesis"); GenesisPath (Ok gp);
       RemoveAll gp (Ok tt); FromURL url (Err err)].
Proof.
  intros Hin. unfold_genesis.
  chain_runs; which_call Hin; simplify_eq.
  repeat match goal with u : unit |- _ => destruct u end.
  repeat split. eexists. reflexivity.
Qed.

(** X14. With a genesis URL set, initGenesis never runs the init command;
    a run that returns no error fetched the genesis, wrote exactly the
    fetched bytes to the genesis path with mode 0644 and validated the
    file, in this order, and ends with the fetched hash as the genesis hash
    of the chain, which had none or had the same one. *)
Theorem initGenesis_remote_success (c : Chain) (w : W) :
  genesisURL c <> "" ->
  Forall (fun k => is_CmdInit k = false) (calls (initGenesis (c, w))) /\
  (outcome (initGenesis (c, w)) = Ok tt ->
   exists gp genesis hash cmd gp' data,
     calls (initGenesis (c, w)) =
       [Send (New StatusOngoing "Computing the Genesis"); GenesisPath (Ok gp);
        RemoveAll gp (Ok tt); FromURL (genesisURL c) (Ok (genesis, hash));
        WriteFile gp genesis 420 (Ok tt);
        Commands (Ok cmd); GenesisPath (Ok gp'); ReadFile gp' (Ok data);
        ValidateGenesis (Ok tt); Send (New StatusDone "Genesis initialized")] /\
     genesisHash (final (initGenesis (c, w))).1 = hash /\
     (genesisHash c = "" \/ genesisHash c = hash)).
Proof.
  intros Hurl. unfold_genesis.
  chain_runs; simplify_eq; text_of_bool; try congruence.
  all: split; [repeat constructor|intros; simplify_eq].
  all: repeat match goal with u : unit |- _ => destruct u end.
  all: eexists _, _, _, _, _, _; split; [reflexivity|].
  all: cbn [fst snd genesisHash set_genesisHash]; auto.
Qed.

(** initGenesis keeps the URL and the flag of the chain record, and
    assigns the genesis hash only when there is a URL and no hash yet. *)
Lemma initGenesis_record (s : St W) :
  genesisURL (final (initGenesis s)).1 = genesisURL s.1 /\
  isInitialized (final (initGenesis s)).1 = isInitialized s.1 /\
  (genesisHash s.1 <> "" -> (final (initGenesis s)).1 = s.1) /\
  (genesisURL s.1 = "" -> (final (initGenesis s)).1 = s.1).
Proof.
  destruct s as [c w]. unfold_genesis.
  chain_runs; text_of_bool; cbn [fst snd genesisURL isInitialized set_genesisHash].
  all: repeat split; intros; congruence.
Qed.

(** X15. The chain record under initGenesis and Init: the genesis URL
    never changes; a genesis hash that is recorded is never overwritten,
    and none is recorded when there is no genesis URL; initGenesis never
    touches the initialization flag. *)
Theorem chain_record_invariants (c : Chain) (w : W) :
  (genesisURL (final (initGenesis (c, w))).1 = genesisURL c /\
   isInitialized (final (initGenesis (c, w))).1 = isInitialized c /\
   (genesisHash c <> "" -> genesisHash (final (initGenesis (c, w))).1 = genesisHash c) /\
   (genesisURL c = "" -> (final (initGenesis (c, w))).1 = c)) /\
  (genesisURL (final (Init (c, w))).1 = genesisURL c /\
   (genesisHash c <> "" -> genesisHash (final (Init (c, w))).1 = genesisHash c) /\
   (genesisURL c = "" -> genesisHash (final (Init (c, w))).1 = genesisHash c)).
Proof.
  split.
  - destruct (initGenesis_record (c, w)) as (U & I & H & D).
    cbn [fst] in *. repeat split; auto. intros Hh. rewrite (H Hh). reflexivity.
  - unfold networkchain.Init. chain_runs.
    all: try (repeat split; reflexivity).
    all: match goal with
         | E : networkchain.initGenesis _ _ _ ?s = _ |- _ =>
             destruct (initGenesis_record s) as (U & I & H & D);
             unfold final in U, I, H, D; rewrite E in U, H, D; cbn [fst snd] in U, H, D
         end.
    all: cbn [genesisURL genesisHash set_isInitialized].
    all: repeat split; intros; rewrite ?H, ?D by assumption; auto.
Qed.

(** X16. initGenesis returns no error exactly when it sent the "Genesis
    initialized" event. *)
Theorem initGenesis_success_iff_done (c : Chain) (w : W) :
  outcome (initGenesis (c, w)) = Ok tt <->
  Send (New StatusDone "Genesis initialized") ∈ calls (initGenesis (c, w)).
Proof.
  unfold_genesis. split.
  - intros Hok. chain_runs; simplify_eq; is_member.
  - intros Hin. chain_runs; which_call Hin; simplify_eq.
    all: repeat match goal with u : unit |- _ => destruct u end; reflexivity.
Qed.

(** In initGenesis a call that returns an error is the last call, every
    call before it returned none, and its error is the outcome. *)
Lemma initGenesis_first_failure (s : St W) (k : Call Cmd) (err : error) :
  k ∈ calls (initGenesis s) ->
  failure k = Some err ->
  outcome (initGenesis s) = Err err /\
  exists pre,
    calls (initGenesis s) = pre ++ [k] /\ Forall (fun k => failure k = None) pre.
Proof.
  destruct s as [c w]. intros Hin Hfail. unfold_genesis.
  chain_runs; which_call Hin; subst k; cbn in Hfail; simplify_eq.
  all: split; [reflexivity|].
  all: first [ eexists []; split; [reflexivity|repeat constructor]
             | eexists [_]; split; [reflexivity|repeat constructor]
             | eexists [_; _]; split; [reflexivity|repeat constructor]
             | eexists [_; _; _]; split; [reflexivity|repeat constructor]
             | eexists [_; _; _; _]; split; [reflexivity|repeat constructor]
             | eexists [_; _; _; _; _]; split; [reflexivity|repeat constructor]
             | eexists [_; _; _; _; _; _]; split; [reflexivity|repeat constructor]
             | eexists [_; _; _; _; _; _; _]; split; [reflexivity|repeat constructor]
             | eexists [_; _; _; _; _; _; _; _]; split; [reflexivity|repeat constructor] ].
Qed.

(** X17. Init stops at the first failure: a call that returns an error is
    the last call of the run, every call before it returned no error, and
    its error is what Init returns. *)
Theorem Init_stops_at_first_failure (c : Chain) (w : W) (k : Call Cmd) (err : error) :
  k ∈ calls (Init (c, w)) ->
  failure k = Some err ->
  outcome (Init (c, w)) = Err err /\
  exists pre,
    calls (Init (c, w)) = pre ++ [k] /\ Forall (fun k => failure k = None) pre.
Proof.
  intros Hin Hfail. unfold networkchain.Init in *.
  chain_runs.
  all: try (which_call Hin; subst k; cbn in Hfail; simplify_eq;
            split; [reflexivity|];
            first [ eexists []; split; [reflexivity|repeat constructor]
                  | eexists [_]; split; [reflexivity|repeat constructor]
                  | eexists [_; _]; split; [reflexivity|repeat constructor]
                  | eexists [_; _; _; _]; split; [reflexivity|repeat constructor] ]).
  all: repeat (apply elem_of_cons in Hin;
               destruct Hin as [->|Hin]; [cbn in Hfail; simplify_eq|]).
  all: rewrite ?app_nil_r in *.
  all: match goal with
       | E : networkchain.initGenesis _ _ _ ?s = _ |- _ =>
           destruct (initGenesis_first_failure s k err) as (O & pre & P & F);
           [unfold calls; rewrite E; exact Hin|exact Hfail|];
           unfold calls, outcome in O, P; rewrite E in O, P; cbn [fst snd] in O, P
       end.
  all: simplify_eq.
  all: split; [reflexivity|].
  all: eexists (_ :: _ :: _ :: _ :: _ :: _ :: pre); split; [reflexivity|].
  all: repeat (constructor; [reflexivity|]); assumption.
Qed.

(** X18. Init starts by wiping: its first call resolves the home
    directory and its second removes that directory; nothing is built or
    initialized before, nor at all when the removal fails. *)
Theorem Init_wipes_home_first (c : Chain) (w : W) :
  (exists err, calls (Init (c, w)) = [Home (Err err)]) \/
  (exists h r rest,
     calls (Init (c, w)) = Home (Ok h) :: RemoveAll h r :: rest /\
     (r = Ok tt \/ rest = [])).
Proof.
  unfold networkchain.Init. chain_runs.
  all: repeat match goal with u : unit |- _ => destruct u end.
  all: first [ left; eexists; reflexivity
             | right; eexists _, _, _; split; [reflexivity|auto] ].
Qed.

(** X19. Init never clears the initialization flag: a chain marked
    initialized stays marked after every run of Init, also after a run that
    removed its home directory and then failed. *)
Theorem Init_never_clears_flag (c : Chain) (w : W) :
  isInitialized c = true ->
  isInitialized (final (Init (c, w))).1 = true.
Proof.
  intros Hflag. unfold networkchain.Init. chain_runs; try assumption.
  all: try reflexivity.
  all: match goal with
       | E : networkchain.initGenesis _ _ _ ?s = _ |- _ =>
           destruct (initGenesis_record s) as (_ & I & _);
           unfold final in I; rewrite E in I; cbn [fst snd] in I
       end.
  all: congruence.
Qed.

(** The calls, the outcome and the world after initGenesis do not depend
    on the initialization flag of the chain, nor do the URL and the hash
    it leaves. *)
Lemma initGenesis_ignores_flag (c : Chain) (w : W) (b : bool) :
  outcome (initGenesis (set_isInitialized b c, w)) = outcome (initGenesis (c, w)) /\
  calls (initGenesis (set_isInitialized b c, w)) = calls (initGenesis (c, w)) /\
  (final (initGenesis (set_isInitialized b c, w))).2 = (final (initGenesis (c, w))).2 /\
  (final (initGenesis (set_isInitialized b c, w))).1
    = set_isInitialized b (final (initGenesis (c, w))).1.
Proof.
  destruct c as [u h i]. unfold_genesis. unfold set_isInitialized.
  cbn [genesisURL genesisHash isInitialized].
  unfold networkchain.ext, networkchain.send, networkchain.field, networkchain.assign,
    mbind, mret, M_mbind, M_mret, M_bind, M_ret, call, call_total, fail,
    outcome, final, calls.
  repeat (cbn [fst snd app genesisURL genesisHash isInitialized set_genesisHash];
          destruct_scrutinee).
  all: cbn [fst snd app genesisURL genesisHash isInitialized set_genesisHash].
  all: repeat split; reflexivity.
Qed.

(** X20. Init does not consult the initialization flag: on a chain
    already marked initialized it makes the same calls with the same
    outcome, in the same world, as on the same chain not marked. *)
Theorem Init_ignores_flag (c : Chain) (w : W) (b : bool) :
  outcome (Init (set_isInitialized b c, w)) = outcome (Init (c, w)) /\
  calls (Init (set_isInitialized b c, w)) = calls (Init (c, w)) /\
  (final (Init (set_isInitialized b c, w))).2 = (final (Init (c, w))).2 /\
  genesisHash (final (Init (set_isInitialized b c, w))).1
    = genesisHash (final (Init (c, w))).1.
Proof.
  pose proof (initGenesis_ignores_flag c) as IG.
  unfold networkchain.Init. chain_runs.
  all: try (repeat split; reflexivity).
  all: match goal with
       | E1 : networkchain.initGenesis _ _ _ (set_isInitialized ?b0 ?c0, ?w') = _,
         E2 : networkchain.initGenesis _ _ _ (?c0, ?w') = _ |- _ =>
           destruct (IG w' b0) as (O & C & Wd & R);
           unfold outcome, calls, final in O, C, Wd, R;
           rewrite E1, E2 in O, C, Wd, R; cbn [fst snd] in O, C, Wd, R
       end.
  all: simplify_eq.
  all: cbn [fst snd genesisHash set_isInitialized];
    rewrite ?Wd, ?R; cbn [genesisHash set_isInitialized];
    repeat split; reflexivity.
Qed.

End ChainRuns.

(** * The further properties on concrete inputs *)

(** X1 on an SPN that does not answer. *)
Lemma TriggerLaunch_params_failure_witness :
  outcome (sim.TriggerLaunch (Err "rpc error") (Ok sim.coordinator) (Ok sim.receipt)
             7%N 0 sim.now0) = Err "rpc error" /\
  calls (sim.TriggerLaunch (Err "rpc error") (Ok sim.coordinator) (Ok sim.receipt)
           7%N 0 sim.now0) =
    [network.Send (New StatusOngoing ("Launching chain " +:+ fmt_d 7));
     network.Params_ (Err "rpc error")].
Proof.
  apply (TriggerLaunch_params_failure sim.World sim.Response sim.Decode sim.Time_String
           sim.SPN (sim.Network (Err "rpc error") (Ok sim.coordinator) (Ok sim.receipt))).
  vm_compute. repeat constructor.
Defined.

(** X2 on a keyring without the coordinator key, with a requested time
    far after the window. *)
Lemma TriggerLaunch_address_failure_witness :
  outcome (sim.TriggerLaunch (Ok sim.day_to_three) (Err "key not found") (Ok sim.receipt)
             7%N (sim.T0 + 100 * sim.Hour) sim.now0) = Err "key not found" /\
  exists resp now1 now2,
    calls (sim.TriggerLaunch (Ok sim.day_to_three) (Err "key not found") (Ok sim.receipt)
             7%N (sim.T0 + 100 * sim.Hour) sim.now0) =
      [network.Send (New StatusOngoing ("Launching chain " +:+ fmt_d 7));
       network.Params_ (Ok resp); network.Now now1; network.Now now2;
       network.Address sim.SPN (Err "key not found")].
Proof.
  apply (TriggerLaunch_address_failure sim.World sim.Response sim.Decode sim.Time_String
           sim.SPN
           (sim.Network (Ok sim.day_to_three) (Err "key not found") (Ok sim.receipt))).
  vm_compute. repeat constructor.
Defined.

(** X3 on a broadcaster that rejects the transaction. *)
Lemma TriggerLaunch_broadcast_failure_witness :
  outcome (sim.TriggerLaunch (Ok sim.day_to_three) (Ok sim.coordinator)
             (Err "broadcast failed") 7%N 0 sim.now0) = Err "broadcast failed" /\
  exists pre,
    calls (sim.TriggerLaunch (Ok sim.day_to_three) (Ok sim.coordinator)
             (Err "broadcast failed") 7%N 0 sim.now0) =
      pre ++ [network.BroadcastTx
                (TriggerLaunchMsg
                   (NewMsgTriggerLaunch sim.coordinator 7
                      (sim.T0 + 24 * sim.Hour + 30 * Second)))
                (Err "broadcast failed")] /\
    Forall (fun c => network.is_BroadcastTx c = false /\ network.is_Decode c = false /\
                     network.is_Done c = false) pre.
Proof.
  apply (TriggerLaunch_broadcast_failure sim.World sim.Response sim.Decode sim.Time_String
           sim.SPN
           (sim.Network (Ok sim.day_to_three) (Ok sim.coordinator) (Err "broadcast failed"))).
  vm_compute. repeat constructor.
Defined.

(** X5 on a launch with no requested time. *)
Lemma TriggerLaunch_submitted_message_witness :
  exists addr t,
    network.Address sim.SPN (Ok addr) ∈ drop 4 (calls (sim.launch sim.day_to_three 0)) /\
    TriggerLaunchMsg
      (NewMsgTriggerLaunch sim.coordinator 7 (sim.T0 + 24 * sim.Hour + 30 * Second))
      = TriggerLaunchMsg (NewMsgTriggerLaunch addr 7 t) /\
    t = (if 0 =? 0
         then sim.T0 + MinLaunchTime (LaunchTimeRange_ sim.day_to_three) + 30 * 1000000000
         else 0) /\
    sim.T0 + MinLaunchTime (LaunchTimeRange_ sim.day_to_three) + 30 * 1000000000 <= t /\
    (0 <> 0 -> t <= sim.T0 + MaxLaunchTime (LaunchTimeRange_ sim.day_to_three)).
Proof.
  assert (Hpre : calls (sim.launch sim.day_to_three 0) =
      network.Send (New StatusOngoing "Launching chain 7")
        :: network.Params_ (Ok {| GetParams := sim.day_to_three |})
        :: network.Now sim.T0 :: network.Now sim.T0
        :: drop 4 (calls (sim.launch sim.day_to_three 0)))
    by (vm_compute; reflexivity).
  apply (TriggerLaunch_submitted_message sim.World sim.Response sim.Decode
           sim.Time_String sim.SPN
           (sim.Network (Ok sim.day_to_three) (Ok sim.coordinator) (Ok sim.receipt))
           7%N 0 sim.now0 _ _ _ _ _ _ (Ok sim.receipt) Hpre).
  vm_compute. repeat constructor.
Defined.

(** X6 on a launch with no requested time. *)
Lemma TriggerLaunch_success_announces_submitted_time_witness :
  exists pre m res,
    calls (sim.launch sim.day_to_three 0) =
      pre ++ [network.BroadcastTx (TriggerLaunchMsg m) (Ok res);
              network.Decode res (Ok tt);
              network.Send
                (New StatusDone
                   ("Chain " +:+ fmt_d 7 +:+ " will be launched on "
                    +:+ sim.Time_String (LaunchTime m)))] /\
    LaunchID m = 7%N /\
    sim.Decode res = Ok tt.
Proof.
  assert (Hok : outcome (sim.launch sim.day_to_three 0) = Ok tt)
    by (vm_compute; reflexivity).
  exact (TriggerLaunch_success_announces_submitted_time sim.World sim.Response sim.Decode
           sim.Time_String sim.SPN
           (sim.Network (Ok sim.day_to_three) (Ok sim.coordinator) (Ok sim.receipt))
           7%N 0 sim.now0 Hok).
Defined.

(** X7 on a revert that goes through. *)
Lemma RevertLaunch_success_witness :
  exists addr res,
    calls (sim.RevertLaunch (Ok sim.day_to_three) (Ok sim.coordinator) (Ok sim.receipt)
             7%N (sim.Chain (Ok tt)) sim.now0) =
      [network.Send (New StatusOngoing ("Reverting launched chain " +:+ fmt_d 7));
       network.Address sim.SPN (Ok addr);
       network.BroadcastTx (RevertLaunchMsg (NewMsgRevertLaunch addr 7)) (Ok res);
       network.Send (New StatusDone ("Chain " +:+ fmt_d 7 +:+ " launch was reverted"));
       network.Send (New StatusOngoing "Resetting the genesis time");
       network.ResetGenesisTime_ (Ok tt);
       network.Send (New StatusDone "Genesis time was reset")].
Proof.
  apply (RevertLaunch_success sim.World sim.Response sim.SPN
           (sim.Network (Ok sim.day_to_three) (Ok sim.coordinator) (Ok sim.receipt))).
  vm_compute. reflexivity.
Defined.

(** X8 on a broadcaster that rejects the revert. *)
Lemma RevertLaunch_failure_before_reset_witness :
  outcome (sim.RevertLaunch (Ok sim.day_to_three) (Ok sim.coordinator)
             (Err "broadcast failed") 7%N (sim.Chain (Ok tt)) sim.now0)
    = Err "broadcast failed" /\
  Forall (fun c => network.is_Done c = false /\
                   match c with network.ResetGenesisTime_ _ => False | _ => True end)
    (calls (sim.RevertLaunch (Ok sim.day_to_three) (Ok sim.coordinator)
              (Err "broadcast failed") 7%N (sim.Chain (Ok tt)) sim.now0)).
Proof.
  apply (RevertLaunch_failure_before_reset sim.World sim.Response sim.SPN
           (sim.Network (Ok sim.day_to_three) (Ok sim.coordinator) (Err "broadcast failed"))).
  right. exists (RevertLaunchMsg (NewMsgRevertLaunch sim.coordinator 7)).
  vm_compute. repeat constructor.
Defined.

(** X9 on a chain whose genesis time cannot be reset. *)
Lemma RevertLaunch_reset_failure_witness :
  outcome (sim.RevertLaunch (Ok sim.day_to_three) (Ok sim.coordinator) (Ok sim.receipt)
             7%N (sim.Chain (Err "reset failed")) sim.now0) = Err "reset failed" /\
  exists addr res,
    calls (sim.RevertLaunch (Ok sim.day_to_three) (Ok sim.coordinator) (Ok sim.receipt)
             7%N (sim.Chain (Err "reset failed")) sim.now0) =
      [network.Send (New StatusOngoing ("Reverting launched chain " +:+ fmt_d 7));
       network.Address sim.SPN (Ok addr);
       network.BroadcastTx (RevertLaunchMsg (NewMsgRevertLaunch addr 7)) (Ok res);
       network.Send (New StatusDone ("Chain " +:+ fmt_d 7 +:+ " launch was reverted"));
       network.Send (New StatusOngoing "Resetting the genesis time");
       network.ResetGenesisTime_ (Err "reset failed")].
Proof.
  apply (RevertLaunch_reset_failure sim.World sim.Response sim.SPN
           (sim.Network (Ok sim.day_to_three) (Ok sim.coordinator) (Ok sim.receipt))).
  vm_compute. repeat constructor.
Defined.

(** X10 on a genesis without gentx that the chain binary rejects. *)
Lemma checkInitialGenesis_validates_last_witness :
  outcome (sim.checkInitialGenesis sim.default_genesis (Err "validation failed")
             (sim.local_chain, sim.with_file sim.genesis_json "{}" sim.now0))
    = Err "validation failed" /\
  exists cmd gp data g,
    calls (sim.checkInitialGenesis sim.default_genesis (Err "validation failed")
             (sim.local_chain, sim.with_file sim.genesis_json "{}" sim.now0)) =
      [networkchain.Commands (Ok cmd); networkchain.GenesisPath (Ok gp);
       networkchain.ReadFile gp (Ok data);
       networkchain.ValidateGenesis (Err "validation failed")] /\
    sim.ParseChainGenesis data = Ok g /\
    sim.GenTxCount g <= 0.
Proof.
  apply (checkInitialGenesis_validates_last sim.World unit sim.ChainGenesis
           sim.ParseChainGenesis sim.GenTxCount
           (sim.Env sim.default_genesis (Err "validation failed"))).
  vm_compute. repeat constructor.
Defined.

(** X11 on an empty genesis file. *)
Lemma checkInitialGenesis_parse_error_witness :
  sim.ParseChainGenesis [] = Err "unexpected end of JSON input" /\
  outcome (sim.checkInitialGenesis sim.default_genesis (Ok tt)
             (sim.local_chain, sim.write sim.genesis_json [] sim.now0))
    = Err "unexpected end of JSON input" /\
  drop 3 (calls (sim.checkInitialGenesis sim.default_genesis (Ok tt)
                   (sim.local_chain, sim.write sim.genesis_json [] sim.now0))) = [].
Proof.
  split; [reflexivity|].
  assert (Hpre :
    calls (sim.checkInitialGenesis sim.default_genesis (Ok tt)
             (sim.local_chain, sim.write sim.genesis_json [] sim.now0)) =
      networkchain.Commands (Ok tt)
        :: networkchain.GenesisPath (Ok sim.genesis_json)
        :: networkchain.ReadFile sim.genesis_json (Ok [])
        :: drop 3 (calls (sim.checkInitialGenesis sim.default_genesis (Ok tt)
                            (sim.local_chain, sim.write sim.genesis_json [] sim.now0))))
    by (vm_compute; reflexivity).
  exact (checkInitialGenesis_parse_error sim.World unit sim.ChainGenesis
           sim.ParseChainGenesis sim.GenTxCount (sim.Env sim.default_genesis (Ok tt))
           sim.local_chain (sim.write sim.genesis_json [] sim.now0)
           _ _ _ _ _ Hpre eq_refl).
Defined.

(** X13 on a genesis URL that the server does not know. *)
Lemma initGenesis_fetch_failure_witness :
  outcome (sim.initGenesis sim.default_genesis (Ok tt) (sim.remote_chain "", sim.now0))
    = Err ("genesis url fetch error " +:+ sim.url0) /\
  (final (sim.initGenesis sim.default_genesis (Ok tt)
            (sim.remote_chain "", sim.now0))).1 = sim.remote_chain "" /\
  sim.url0 = networkchain.genesisURL (sim.remote_chain "") /\
  exists gp,
    calls (sim.initGenesis sim.default_genesis (Ok tt) (sim.remote_chain "", sim.now0)) =
      [networkchain.Send (New StatusOngoing "Computing the Genesis");
       networkchain.GenesisPath (Ok gp); networkchain.RemoveAll gp (Ok tt);
       networkchain.FromURL sim.url0 (Err ("genesis url fetch error " +:+ sim.url0))].
Proof.
  apply (initGenesis_fetch_failure sim.World unit sim.ChainGenesis
           sim.ParseChainGenesis sim.GenTxCount (sim.Env sim.default_genesis (Ok tt))).
  vm_compute. repeat constructor.
Defined.

(** X14 on a remote genesis with hash "abc" and a chain with no hash. *)
Lemma initGenesis_remote_success_witness :
  exists gp genesis hash cmd gp' data,
    calls (sim.initGenesis sim.default_genesis (Ok tt)
             (sim.remote_chain "", sim.with_remote sim.url0 "{}" "abc" sim.now0)) =
      [networkchain.Send (New StatusOngoing "Computing the Genesis");
       networkchain.GenesisPath (Ok gp); networkchain.RemoveAll gp (Ok tt);
       networkchain.FromURL (networkchain.genesisURL (sim.remote_chain ""))
         (Ok (genesis, hash));
       networkchain.WriteFile gp genesis 420 (Ok tt);
       networkchain.Commands (Ok cmd); networkchain.GenesisPath (Ok gp');
       networkchain.ReadFile gp' (Ok data); networkchain.ValidateGenesis (Ok tt);
       networkchain.Send (New StatusDone "Genesis initialized")] /\
    networkchain.genesisHash
      (final (sim.initGenesis sim.default_genesis (Ok tt)
                (sim.remote_chain "", sim.with_remote sim.url0 "{}" "abc" sim.now0))).1
      = hash /\
    (networkchain.genesisHash (sim.remote_chain "") = "" \/
     networkchain.genesisHash (sim.remote_chain "") = hash).
Proof.
  destruct (initGenesis_remote_success sim.World unit sim.ChainGenesis
              sim.ParseChainGenesis sim.GenTxCount (sim.Env sim.default_genesis (Ok tt))
              (sim.remote_chain "") (sim.with_remote sim.url0 "{}" "abc" sim.now0))
    as [_ S]; [discriminate|].
  apply S. vm_compute. reflexivity.
Defined.

(** X15 on a chain that expects hash "def" while the server holds a
    genesis with hash "abc": the recorded hash stays. *)
Lemma chain_record_invariants_witness :
  networkchain.genesisHash
    (final (sim.Init sim.default_genesis (Ok tt)
              (sim.remote_chain "def", sim.with_remote sim.url0 "{}" "abc" sim.now0))).1
    = "def" /\
  (final (sim.initGenesis sim.default_genesis (Ok tt) (sim.local_chain, sim.now0))).1
    = sim.local_chain.
Proof.
  destruct (chain_record_invariants sim.World unit sim.ChainGenesis
              sim.ParseChainGenesis sim.GenTxCount (sim.Env sim.default_genesis (Ok tt))
              (sim.remote_chain "def") (sim.with_remote sim.url0 "{}" "abc" sim.now0))
    as (_ & _ & H & _).
  destruct (chain_record_invariants sim.World unit sim.ChainGenesis
              sim.ParseChainGenesis sim.GenTxCount (sim.Env sim.default_genesis (Ok tt))
              sim.local_chain sim.now0)
    as ((_ & _ & _ & D) & _).
  split; [apply H; discriminate|apply D; reflexivity].
Defined.

(** X16 on a chain with no genesis URL. *)
Lemma initGenesis_success_iff_done_witness :
  networkchain.Send (New StatusDone "Genesis initialized")
    ∈ calls (sim.initGenesis sim.default_genesis (Ok tt) (sim.local_chain, sim.now0)).
Proof.
  apply (initGenesis_success_iff_done sim.World unit sim.ChainGenesis
           sim.ParseChainGenesis sim.GenTxCount (sim.Env sim.default_genesis (Ok tt))).
  vm_compute. reflexivity.
Defined.

(** X17 on a chain whose genesis the chain binary rejects. *)
Lemma Init_stops_at_first_failure_witness :
  outcome (sim.Init sim.default_genesis (Err "validation failed")
             (sim.local_chain, sim.now0)) = Err "validation failed" /\
  exists pre,
    calls (sim.Init sim.default_genesis (Err "validation failed")
             (sim.local_chain, sim.now0)) =
      pre ++ [networkchain.ValidateGenesis (Err "validation failed")] /\
    Forall (fun k => networkchain.failure k = None) pre.
Proof.
  apply (Init_stops_at_first_failure sim.World unit sim.ChainGenesis
           sim.ParseChainGenesis sim.GenTxCount
           (sim.Env sim.default_genesis (Err "validation failed"))).
  - vm_compute. repeat constructor.
  - reflexivity.
Defined.

(** X19 on a chain marked initialized whose second Init fails at
    validation, after the home directory was removed. *)
Lemma Init_never_clears_flag_witness :
  networkchain.RemoveAll sim.home (Ok tt)
    ∈ calls (sim.Init sim.default_genesis (Err "validation failed")
               (networkchain.set_isInitialized true sim.local_chain, sim.now0)) /\
  outcome (sim.Init sim.default_genesis (Err "validation failed")
             (networkchain.set_isInitialized true sim.local_chain, sim.now0))
    = Err "validation failed" /\
  networkchain.isInitialized
    (final (sim.Init sim.default_genesis (Err "validation failed")
              (networkchain.set_isInitialized true sim.local_chain, sim.now0))).1 = true.
Proof.
  split; [vm_compute; repeat constructor|]. split; [vm_compute; reflexivity|].
  apply (Init_never_clears_flag sim.World unit sim.ChainGenesis
           sim.ParseChainGenesis sim.GenTxCount
           (sim.Env sim.default_genesis (Err "validation failed"))).
  reflexivity.
Defined.
